(** * VCFReader: a shallow embedding of [variantworks/io/vcfio.py]

    The reader turns the records of a VCF file, as the cyvcf2 library hands
    them over, into a flat table with one row per (record, alternate allele).
    Python exceptions are modelled by an error monad, dictionaries by [gmap],
    Python lists by [list], Python integers by [Z].  The type of Python's
    floats is a parameter, [pyfloat]; what lies outside the repository (the
    conversions between floats, integers and text, the integer values of the
    two enumerations) is an interface over it, [PyExternals]. *)

From Stdlib Require Import ZArith String Ascii List Lia.
From stdpp Require Import base tactics option list sorting gmap strings pretty.

Local Open Scope string_scope.
Local Open Scope list_scope.
Local Open Scope Z_scope.

(** ** Exceptions and the error monad *)

Inductive exn : Type :=
| RuntimeError (args : list string)
| TypeError
| IndexError
| KeyError (key : string)
| ValueError
| AttributeError
| OverflowError
| ZeroDivisionError.

Inductive result (A : Type) : Type :=
| Ok (a : A)
| Raise (e : exn).
Arguments Ok {A} a.
Arguments Raise {A} e.

#[export] Instance result_ret : MRet result := @Ok.
#[export] Instance result_bind : MBind result :=
  λ A B f m, match m with Ok a => f a | Raise e => Raise e end.

Definition is_Ok {A} (m : result A) : bool :=
  match m with Ok _ => true | Raise _ => false end.

#[export] Instance exn_eq_dec : EqDecision exn.
Proof. solve_decision. Defined.
#[export] Instance result_eq_dec `{EqDecision A} : EqDecision (result A).
Proof. solve_decision. Defined.

(** [l[i]] for a non-negative index. *)
Definition py_index {A} (l : list A) (i : nat) : result A :=
  match l !! i with
  | Some x => Ok x
  | None => Raise IndexError
  end.

(** [l[i] = x] for a non-negative index. *)
Definition py_setitem {A} (l : list A) (i : nat) (x : A) : result (list A) :=
  if decide (i < length l)%nat then Ok (<[i:=x]> l) else Raise IndexError.

(** [d[k]] on a dictionary. *)
Definition py_getitem {A} (d : gmap string A) (k : string) : result A :=
  match d !! k with
  | Some x => Ok x
  | None => Raise (KeyError k)
  end.

(** ** Strings

    Header strings are ASCII text; on ASCII text [str.isdigit] holds of the
    non-empty strings of the characters 0 to 9, and [int] reads such a string
    in base ten. *)

Definition is_ascii_digit (c : ascii) : bool :=
  (48 <=? nat_of_ascii c)%nat && (nat_of_ascii c <=? 57)%nat.

Fixpoint all_digits (s : string) : bool :=
  match s with
  | EmptyString => true
  | String c s' => is_ascii_digit c && all_digits s'
  end.

Definition isdigit (s : string) : bool :=
  match s with
  | EmptyString => false
  | String _ _ => all_digits s
  end.

Definition digit_value (c : ascii) : Z := Z.of_nat (nat_of_ascii c) - 48.

Fixpoint decimal_value_from (acc : Z) (s : string) : Z :=
  match s with
  | EmptyString => acc
  | String c s' => decimal_value_from (10 * acc + digit_value c) s'
  end.

Definition decimal_value (s : string) : Z := decimal_value_from 0 s.

(** [s.split(sep)] for a one-character separator. *)
Fixpoint split_go (sep : ascii) (cur : string) (s : string) : list string :=
  match s with
  | EmptyString => [String.rev cur]
  | String c s' =>
      if decide (c = sep) then String.rev cur :: split_go sep EmptyString s'
      else split_go sep (String c cur) s'
  end.

Definition split (s : string) (sep : ascii) : list string :=
  split_go sep EmptyString s.

(** [sep.join(l)] *)
Fixpoint join (sep : string) (l : list string) : string :=
  match l with
  | [] => ""
  | [x] => x
  | x :: l' => x +:+ sep +:+ join sep l'
  end.

(** ** The enumerations of [variantworks.types] *)

Inductive VariantZygosity : Type := NONE | NO_VARIANT | HETEROZYGOUS | HOMOZYGOUS.
Inductive VariantType : Type := SNP | INSERTION | DELETION.

#[export] Instance VariantZygosity_eq_dec : EqDecision VariantZygosity.
Proof. solve_decision. Defined.
#[export] Instance VariantType_eq_dec : EqDecision VariantType.
Proof. solve_decision. Defined.

(** ** What the repository takes from outside

    Python's floats and the conversions that involve them, [int] on an
    arbitrary string, and the integer values of the two enumerations (declared
    in [variantworks/types.py]).  The one law ties [int] on strings to the
    decimal reading where [str.isdigit] has been checked first. *)
Class PyExternals (pyfloat : Type) : Type := {
  float_nan : pyfloat;
  int_of_str : string → result Z;
  int_of_float : pyfloat → result Z;
  float_of_str : string → result pyfloat;
  float_of_int : Z → result pyfloat;
  float_eq_int : pyfloat → Z → bool;
  str_of_float : pyfloat → string;
  int_of_str_isdigit :
    ∀ s, isdigit s = true → int_of_str s = Ok (decimal_value s);
  zygosity_value : VariantZygosity → Z;
  zygosity_value_inj : Inj (=) (=) zygosity_value;
  type_value : VariantType → Z;
  type_value_inj : Inj (=) (=) type_value;
}.

Section Reader.
Context {pyfloat : Type} `{!PyExternals pyfloat}.

(** ** Python values held by records and table cells *)

Inductive pyval : Type :=
| VNone
| VBool (b : bool)
| VInt (z : Z)
| VFloat (f : pyfloat)
| VStr (s : string).

Definition is_None (v : pyval) : bool :=
  match v with VNone => true | _ => false end.

(** [str(v)] *)
Definition py_str (v : pyval) : string :=
  match v with
  | VNone => "None"
  | VBool true => "True"
  | VBool false => "False"
  | VInt z => pretty z
  | VFloat f => str_of_float f
  | VStr s => s
  end.

(** [int(v)] *)
Definition py_int (v : pyval) : result Z :=
  match v with
  | VNone => Raise TypeError
  | VBool b => Ok (Z.b2z b)
  | VInt z => Ok z
  | VFloat f => int_of_float f
  | VStr s => int_of_str s
  end.

(** [float(v)] *)
Definition py_float (v : pyval) : result pyfloat :=
  match v with
  | VNone => Raise TypeError
  | VBool b => float_of_int (Z.b2z b)
  | VInt z => float_of_int z
  | VFloat f => Ok f
  | VStr s => float_of_str s
  end.

(** ** The table: a model of [pandas.DataFrame]

    A frame is its row count with its columns by name.  Cells keep the Python
    value they were built from. *)

Record DataFrame : Type := {
  df_len : nat;
  df_columns : gmap string (list pyval);
}.

(** [pd.DataFrame()] *)
Definition empty_frame : DataFrame := {| df_len := 0; df_columns := ∅ |}.

(** [pd.DataFrame.from_dict(d)]: every column must have the same length. *)
Definition from_dict (d : gmap string (list pyval)) : result DataFrame :=
  match map_to_list d with
  | [] => Ok empty_frame
  | (_, c) :: _ =>
      if forallb (λ kc, length kc.2 =? length c)%nat (map_to_list d)
      then Ok {| df_len := length c; df_columns := d |}
      else Raise ValueError
  end.

(** The column [k] of [df] as [pd.concat] sees it: a frame without the column
    contributes one NaN per row. *)
Definition column_or_nan (k : string) (df : DataFrame) : list pyval :=
  default (replicate (df_len df) (VFloat float_nan)) (df_columns df !! k).

(** [pd.concat(dfs, ignore_index=True)] *)
Definition concat (dfs : list DataFrame) : result DataFrame :=
  match dfs with
  | [] => Raise ValueError
  | _ :: _ =>
      let names : gset string := ⋃ ((dom ∘ df_columns) <$> dfs) in
      Ok {| df_len := sum_list (df_len <$> dfs);
            df_columns :=
              set_to_map (λ k, (k, mjoin (column_or_nan k <$> dfs))) names |}
  end.

(** [df.iloc[idx]]: the row as a mapping from column name to cell. *)
Definition iloc (df : DataFrame) (idx : Z) : result (gmap string pyval) :=
  let n := Z.of_nat (df_len df) in
  let i := if decide (idx < 0) then idx + n else idx in
  if decide (0 ≤ i < n)
  then Ok (omap (λ c : list pyval, c !! Z.to_nat i) (df_columns df))
  else Raise IndexError.

(** ** The record source: a model of what cyvcf2 hands over *)

(** A raw INFO value: a tuple, or a single value. *)
Inductive info_value : Type :=
| Scalar (v : pyval)
| Tuple (vs : list pyval).

(** [genotypes] holds, per sample, the two allele indices followed by the
    phasing flag (a boolean, read as 0 or 1); each access decodes the record
    anew.  [format k] is [variant.format(k)]: one row of values per sample. *)
Record cyvcf2_Variant : Type := {
  CHROM : string;
  start : Z;
  end_ : Z;
  ID : option string;
  REF : string;
  ALT : list string;
  QUAL : option pyfloat;
  FILTER : option string;
  INFO : gmap string info_value;
  genotypes : list (list Z);
  format : string → option (list (list pyval));
}.

(** [header_iter] lists the header lines, each a dictionary; [get_header_type k]
    is the dictionary of the line that declares [k]; [variants] is what
    iterating the handle yields, [variants_in r] what [vcf(r)] yields. *)
Record cyvcf2_VCF : Type := {
  samples : list string;
  header_iter : list (gmap string string);
  get_header_type : string → result (gmap string string);
  variants : list cyvcf2_Variant;
  variants_in : string → list cyvcf2_Variant;
}.

(** ** The reader *)

(** The fields of [self].  The two dictionaries of counts keep the order in
    which their keys were first set, as Python's do; a count is [None] where
    [_get_normalized_count] returned nothing. *)
Record VCFReader : Type := {
  _vcf : string;
  _bams : list string;
  _is_fp : bool;
  _require_genotype : bool;
  _tag : string;
  _regions : option string;
  _num_threads : Z;
  _chunksize : Z;
  _dataframe : option DataFrame;
  _sample_names : gset string;
  _info_vcf_keys : list string;
  _info_vcf_key_counts : list (string * option Z);
  _filter_vcf_keys : list string;
  _format_vcf_keys : list string;
  _format_vcf_key_counts : list (string * option Z);
}.

(** An INFO entry of the materialized view: one value, or a list of values. *)
Inductive info_entry : Type :=
| Single (v : pyval)
| Multi (vs : list pyval).

(** [variantworks.types.Variant], as [__getitem__] fills it. *)
Record Variant : Type := {
  v_chrom : pyval;
  v_pos : pyval;
  v_id : pyval;
  v_ref : pyval;
  v_allele : pyval;
  v_quality : pyval;
  v_filter : option (list string);
  v_info : gmap string info_entry;
  v_format : list string;
  v_type : VariantType;
  v_samples : list (list pyval);
  v_zygosity : list VariantZygosity;
  v_vcf : string;
  v_bams : list string;
}.

(** A [for] loop whose body may raise. *)
Fixpoint foldM {A S} (f : S → A → result S) (s : S) (l : list A) : result S :=
  match l with
  | [] => Ok s
  | x :: l' => s' ← f s x; foldM f s' l'
  end.

Fixpoint enumerate_from {A} (i : nat) (l : list A) : list (nat * A) :=
  match l with
  | [] => []
  | x :: l' => (i, x) :: enumerate_from (S i) l'
  end.

Definition enumerate {A} (l : list A) : list (nat * A) := enumerate_from 0 l.

(** [a // b] and [a % b] *)
Definition py_floordiv (a b : Z) : result Z :=
  if decide (b = 0) then Raise ZeroDivisionError else Ok (a `div` b).

Definition py_mod (a b : Z) : result Z :=
  if decide (b = 0) then Raise ZeroDivisionError else Ok (a `mod` b).

(** [df_dict[k].append(v)] on a [defaultdict(list)] *)
Definition append (df_dict : gmap string (list pyval)) (k : string) (v : pyval)
  : gmap string (list pyval) :=
  <[k := default [] (df_dict !! k) ++ [v]]> df_dict.

(** [[None] * count] *)
Definition none_list (count : option Z) : result (list pyval) :=
  match count with
  | None => Raise TypeError
  | Some n => Ok (replicate (Z.to_nat n) VNone)
  end.

Definition df (self : VCFReader) : result DataFrame :=
  match _dataframe self with
  | None => Raise (RuntimeError ["VCF data frame should be available."])
  | Some d => Ok d
  end.

Definition _detect_variant_type (ref alt : string) : VariantType :=
  if decide (String.length ref = String.length alt) then SNP
  else if decide (String.length ref < String.length alt)%nat then INSERTION
  else DELETION.

Definition _detect_zygosity (self : VCFReader) (gt : list Z) : result VariantZygosity :=
  if _is_fp self then Ok NO_VARIANT
  else
    g0 ← py_index gt 0;
    if decide (g0 = -1) then Ok NONE
    else
      g1 ← py_index gt 1;
      if decide (g1 = -1) then Ok NONE
      else if decide (g0 = g1) then
        if decide (g0 = 0) then Ok NO_VARIANT else Ok HOMOZYGOUS
      else Ok HETEROZYGOUS.

Definition _get_normalized_count (header_number : string) (num_alts num_samples : Z)
  : result (option Z) :=
  if decide (header_number = "A") then Ok (Some num_alts)
  else if decide (header_number = "R") then Ok (Some (num_alts + 1))
  else if decide (header_number = "G") then Ok (Some num_samples)
  else if isdigit header_number then n ← int_of_str header_number; Ok (Some n)
  else if decide (header_number = ".") then Ok (Some 1)
  else Ok None.

Definition _get_header_type_lambda (header_type : string)
  : result (pyval → result pyval) :=
  if decide (header_type = "String") then
    Ok (λ x, if is_None x then Ok VNone else Ok (VStr (py_str x)))
  else if decide (header_type = "Integer") then
    Ok (λ x, if is_None x then Ok VNone else z ← py_int x; Ok (VInt z))
  else if decide (header_type = "Float") then
    Ok (λ x, if is_None x then Ok VNone else f ← py_float x; Ok (VFloat f))
  else if decide (header_type = "Flag") then
    Ok (λ x, if is_None x then Ok (VBool false) else Ok (VBool true))
  else Raise (RuntimeError ["Unknown VCF header type:"; header_type]).


(** ** Decomposition: [_create_df] *)

(** The nested helper of [_create_df]. *)
Definition fix_gt (gt_alt_id loop_alt_id : Z) : Z :=
  if decide (gt_alt_id = loop_alt_id) then 1
  else if decide (gt_alt_id ≠ 0) then -1
  else 0.

(** The fix-up of one sample's genotype for the allele [alt_idx]
    (the assignments to [gt[0]] and [gt[1]] under "Fixup haplotype number"). *)
Definition fixup_genotype (gt : list Z) (alt_idx : nat) : result (list Z) :=
  let alt_id := Z.of_nat alt_idx + 1 in
  g0 ← py_index gt 0;
  gt ← py_setitem gt 0 (fix_gt g0 alt_id);
  g1 ← py_index gt 1;
  gt ← py_setitem gt 1 (fix_gt g1 alt_id);
  g0 ← py_index gt 0;
  other ← (if decide (g0 = -1) then Ok true
           else g1 ← py_index gt 1; Ok (bool_decide (g1 = -1)));
  if other : bool then gt ← py_setitem gt 0 (-1); py_setitem gt 1 (-1)
  else Ok gt.

(** The stand-in for a field that the record does not carry:
    [[None] * self._get_normalized_count(header_number, len(alts), len(samples))]. *)
Definition null_values (vcf : cyvcf2_VCF) (variant : cyvcf2_Variant)
    (header_number : string) : result (list pyval) :=
  count ← _get_normalized_count header_number
            (Z.of_nat (length (ALT variant)))
            (Z.of_nat (length (samples vcf)));
  none_list count.

(** The zygosity recorded for one sample's genotype and the allele [alt_idx]:
    the fix-up, then the classification. *)
Definition zygosity_for_allele (self : VCFReader) (gt : list Z) (alt_idx : nat)
  : result VariantZygosity :=
  gt ← fixup_genotype gt alt_idx;
  _detect_zygosity self gt.

(** The FILTER columns of one row. *)
Definition filter_columns (self : VCFReader) (variant : cyvcf2_Variant)
    (df_dict : gmap string (list pyval)) : gmap string (list pyval) :=
  let variant_filter := default "PASS" (FILTER variant) in
  let filter_set := split variant_filter ";" in
  foldl (λ d filter_col,
           append d ("FILTER_" +:+ filter_col)
                  (VBool (bool_decide (filter_col ∈ filter_set))))
        df_dict (_filter_vcf_keys self).

(** The body of the loop over [self._info_vcf_keys]. *)
Definition info_column (vcf : cyvcf2_VCF) (variant : cyvcf2_Variant) (alt_idx : nat)
    (df_dict : gmap string (list pyval)) (info_col : string)
  : result (gmap string (list pyval)) :=
  h ← get_header_type vcf info_col;
  header_number ← py_getitem h "Number";
  h ← get_header_type vcf info_col;
  ty ← py_getitem h "Type";
  header_python_type ← _get_header_type_lambda ty;
  val ← match INFO variant !! info_col with
        | Some (Tuple vs) => Ok vs
        | Some (Scalar v) => Ok [v]
        | None => null_values vcf variant header_number
        end;
  let df_key := "INFO_" +:+ info_col in
  if decide (header_number = "A") then
    v ← py_index val alt_idx;
    Ok (append df_dict df_key v)
  else if decide (header_number = "R") then
    v ← py_index val 0;
    c ← header_python_type v;
    let df_dict := append df_dict (df_key +:+ "_REF") c in
    v ← py_index val (alt_idx + 1);
    c ← header_python_type v;
    Ok (append df_dict (df_key +:+ "_ALT") c)
  else if isdigit header_number then
    n ← int_of_str header_number;
    if decide (n = 1) then
      v ← py_index val 0;
      c ← header_python_type v;
      Ok (append df_dict df_key c)
    else
      foldM (λ d i,
               v ← py_index val i;
               c ← header_python_type v;
               Ok (append d (df_key +:+ "_" +:+ pretty i) c))
            df_dict (seq 0 (Z.to_nat n))
  else if decide (header_number = ".") then
    Ok (append df_dict df_key (VStr (join "," (py_str <$> val))))
  else Ok df_dict.

(** The body of the loop over the samples, for one FORMAT key. *)
Definition format_column (self : VCFReader) (vcf : cyvcf2_VCF)
    (variant : cyvcf2_Variant) (alt_idx : nat) (format_col : string)
    (df_dict : gmap string (list pyval)) (sample : nat * string)
  : result (gmap string (list pyval)) :=
  let '(sample_idx, sample_name) := sample in
  if decide (format_col = "GT") then
    gt ← py_index (genotypes variant) sample_idx;
    gt ← fixup_genotype gt alt_idx;
    zyg ← _detect_zygosity self gt;
    let df_dict := append df_dict (sample_name +:+ "_zyg") (VInt (zygosity_value zyg)) in
    g0 ← py_index gt 0;
    g1 ← py_index gt 1;
    Ok (append df_dict (sample_name +:+ "_GT") (VStr (pretty g0 +:+ "/" +:+ pretty g1)))
  else
    h ← get_header_type vcf format_col;
    header_number ← py_getitem h "Number";
    h ← get_header_type vcf format_col;
    ty ← py_getitem h "Type";
    header_python_type ← _get_header_type_lambda ty;
    val ← match format variant format_col with
          | Some rows => py_index rows sample_idx
          | None => null_values vcf variant header_number
          end;
    let df_key := sample_name +:+ "_" +:+ format_col in
    if decide (header_number = "A") then
      v ← py_index val alt_idx;
      c ← header_python_type v;
      Ok (append df_dict df_key c)
    else if decide (header_number = "R") then
      v ← py_index val 0;
      c ← header_python_type v;
      let df_dict := append df_dict (df_key +:+ "_REF") c in
      v ← py_index val (alt_idx + 1);
      c ← header_python_type v;
      Ok (append df_dict (df_key +:+ "_ALT") c)
    else if isdigit header_number then
      n ← int_of_str header_number;
      if decide (n = 1) then
        v ← py_index val 0;
        c ← header_python_type v;
        Ok (append df_dict df_key c)
      else
        foldM (λ d i,
                 v ← py_index val i;
                 c ← header_python_type v;
                 Ok (append d (df_key +:+ "_" +:+ pretty i) c))
              df_dict (seq 0 (Z.to_nat n))
    else if decide (header_number = ".") then
      Ok (append df_dict df_key (VStr (join "," (py_str <$> val))))
    else Ok df_dict.

Definition opt_val {A} (f : A → pyval) (o : option A) : pyval :=
  match o with Some a => f a | None => VNone end.

(** The body of the loop over the alternate alleles of one record. *)
Definition alt_row (self : VCFReader) (vcf : cyvcf2_VCF) (variant : cyvcf2_Variant)
    (df_dict : gmap string (list pyval)) (a : nat * string)
  : result (gmap string (list pyval)) :=
  let '(alt_idx, alt) := a in
  let df_dict := append df_dict "chrom" (VStr (CHROM variant)) in
  let df_dict := append df_dict "start_pos" (VInt (start variant)) in
  let df_dict := append df_dict "end_pos" (VInt (end_ variant)) in
  let df_dict := append df_dict "id" (opt_val VStr (ID variant)) in
  let df_dict := append df_dict "ref" (VStr (REF variant)) in
  let df_dict := append df_dict "alt" (VStr alt) in
  let df_dict := append df_dict "variant_type"
                   (VInt (type_value (_detect_variant_type (REF variant) alt))) in
  let df_dict := append df_dict "quality" (opt_val VFloat (QUAL variant)) in
  let df_dict := filter_columns self variant df_dict in
  df_dict ← foldM (info_column vcf variant alt_idx) df_dict (_info_vcf_keys self);
  foldM (λ d format_col,
           foldM (format_column self vcf variant alt_idx format_col) d
                 (enumerate (samples vcf)))
        df_dict (_format_vcf_keys self).

(** The dictionary of columns that the two nested loops of [_create_df] fill. *)
Definition create_df_dict (self : VCFReader) (vcf : cyvcf2_VCF)
    (variant_list : list cyvcf2_Variant) : result (gmap string (list pyval)) :=
  foldM (λ d variant, foldM (alt_row self vcf variant) d (enumerate (ALT variant)))
        ∅ variant_list.

Definition _create_df (self : VCFReader) (vcf : cyvcf2_VCF)
    (variant_list : list cyvcf2_Variant) : result DataFrame :=
  df_dict ← create_df_dict self vcf variant_list;
  from_dict df_dict.


(** ** The worker: [_parse_vcf_cyvcf]

    [vcf] is the handle that [cyvcf2.VCF(self._vcf)] opens; every worker opens
    its own and reads the same records. *)

(** The test "a variant maps to this thread". *)
Definition maps_to_thread (self : VCFReader) (idx : nat) (thread_id : Z) : result bool :=
  q ← py_floordiv (Z.of_nat idx) (_chunksize self);
  r ← py_mod q (_num_threads self);
  Ok (bool_decide (r = thread_id)).

(** The body of the loop over the records; the state is
    [(variant_list, df_list)]. *)
Definition parse_step (self : VCFReader) (vcf : cyvcf2_VCF) (thread_id : Z)
    (st : list cyvcf2_Variant * list DataFrame) (iv : nat * cyvcf2_Variant)
  : result (list cyvcf2_Variant * list DataFrame) :=
  let '(variant_list, df_list) := st in
  let '(idx, variant) := iv in
  mine ← maps_to_thread self idx thread_id;
  if mine : bool then
    let variant_list := variant_list ++ [variant] in
    m ← py_mod (Z.of_nat idx) (_chunksize self);
    if decide (m = 0) then
      d ← _create_df self vcf variant_list;
      Ok ([], df_list ++ [d])
    else Ok (variant_list, df_list)
  else Ok st.

(** [vcf(self._regions) if self._regions else vcf]: the records a worker
    iterates over. *)
Definition generator (self : VCFReader) (vcf : cyvcf2_VCF) : list cyvcf2_Variant :=
  match _regions self with
  | Some r => if decide (r = "") then variants vcf else variants_in vcf r
  | None => variants vcf
  end.

Definition _parse_vcf_cyvcf (self : VCFReader) (vcf : cyvcf2_VCF) (thread_id : Z)
  : result DataFrame :=
  st ← foldM (parse_step self vcf thread_id) ([], []) (enumerate (generator self vcf));
  let '(variant_list, df_list) := st in
  df_list ← match variant_list with
            | [] => Ok df_list
            | _ :: _ => d ← _create_df self vcf variant_list; Ok (df_list ++ [d])
            end;
  match df_list with
  | [] => Ok empty_frame
  | _ :: _ => concat df_list
  end.

(** ** The pipeline: [_parallel_parse_vcf] *)

(** [d[k] = v] on a dictionary kept in insertion order. *)
Fixpoint dict_set {A} (d : list (string * A)) (k : string) (v : A) : list (string * A) :=
  match d with
  | [] => [(k, v)]
  | (k', v') :: d' => if decide (k' = k) then (k, v) :: d' else (k', v') :: dict_set d' k v
  end.

(** [d[k]] on a dictionary kept in insertion order. *)
Fixpoint dict_get {A} (d : list (string * A)) (k : string) : result A :=
  match d with
  | [] => Raise (KeyError k)
  | (k', v) :: d' => if decide (k' = k) then Ok v else dict_get d' k
  end.

(** The keys a wildcard stands for: the IDs of the header lines of [category]. *)
Definition header_ids (vcf : cyvcf2_VCF) (category : string) : result (list string) :=
  foldM (λ keys h,
           ht ← py_getitem h "HeaderType";
           if decide (ht = category) then i ← py_getitem h "ID"; Ok (keys ++ [i])
           else Ok keys)
        [] (header_iter vcf).

Definition expand_keys (vcf : cyvcf2_VCF) (category : string) (keys : list string)
  : result (list string) :=
  if bool_decide ("*" ∈ keys) then header_ids vcf category else Ok keys.

(** The number of values of each key, with one alternate allele. *)
Definition key_counts (vcf : cyvcf2_VCF) (keys : list string)
    (counts : list (string * option Z)) : result (list (string * option Z)) :=
  foldM (λ counts k,
           h ← get_header_type vcf k;
           header_number ← py_getitem h "Number";
           c ← _get_normalized_count header_number 1 (Z.of_nat (length (samples vcf)));
           Ok (dict_set counts k c))
        counts keys.

(** The first part of [_parallel_parse_vcf]: the keys, their counts and the
    sample names, up to the creation of the pool. *)
Definition populate_keys (self : VCFReader) (vcf : cyvcf2_VCF) : result VCFReader :=
  info_keys ← expand_keys vcf "INFO" (_info_vcf_keys self);
  info_counts ← key_counts vcf info_keys (_info_vcf_key_counts self);
  filter_keys ← expand_keys vcf "FILTER" (_filter_vcf_keys self);
  format_keys ← expand_keys vcf "FORMAT" (_format_vcf_keys self);
  format_counts ← key_counts vcf format_keys (_format_vcf_key_counts self);
  Ok {| _vcf := _vcf self; _bams := _bams self; _is_fp := _is_fp self;
        _require_genotype := _require_genotype self; _tag := _tag self;
        _regions := _regions self; _num_threads := _num_threads self;
        _chunksize := _chunksize self; _dataframe := _dataframe self;
        _sample_names := _sample_names self ∪ list_to_set (samples vcf);
        _info_vcf_keys := info_keys; _info_vcf_key_counts := info_counts;
        _filter_vcf_keys := filter_keys;
        _format_vcf_keys := format_keys; _format_vcf_key_counts := format_counts |}.

(** The second part: the pool of workers, and the final table.  [pool.imap]
    yields the workers' tables in the order of the thread ids, and raises what
    a worker raised. *)
Definition run_pool (self : VCFReader) (vcf : cyvcf2_VCF) : result DataFrame :=
  if decide (_num_threads self < 1) then Raise ValueError
  else
    df_list ← mapM (_parse_vcf_cyvcf self vcf) (seqZ 0 (_num_threads self));
    concat df_list.

Definition set_dataframe (self : VCFReader) (d : DataFrame) : VCFReader :=
  {| _vcf := _vcf self; _bams := _bams self; _is_fp := _is_fp self;
     _require_genotype := _require_genotype self; _tag := _tag self;
     _regions := _regions self; _num_threads := _num_threads self;
     _chunksize := _chunksize self; _dataframe := Some d;
     _sample_names := _sample_names self;
     _info_vcf_keys := _info_vcf_keys self;
     _info_vcf_key_counts := _info_vcf_key_counts self;
     _filter_vcf_keys := _filter_vcf_keys self;
     _format_vcf_keys := _format_vcf_keys self;
     _format_vcf_key_counts := _format_vcf_key_counts self |}.

Definition _parallel_parse_vcf (self : VCFReader) (vcf : cyvcf2_VCF) : result VCFReader :=
  self ← populate_keys self vcf;
  d ← run_pool self vcf;
  Ok (set_dataframe self d).

Definition __init__ (vcf_path : string) (bams : list string) (is_fp : bool)
    (require_genotype : bool) (tag : string)
    (info_keys filter_keys format_keys : list string) (regions : option string)
    (num_threads chunksize : Z) (vcf : cyvcf2_VCF) : result VCFReader :=
  _parallel_parse_vcf
    {| _vcf := vcf_path; _bams := bams; _is_fp := is_fp;
       _require_genotype := require_genotype; _tag := tag;
       _regions := regions; _num_threads := num_threads;
       _chunksize := chunksize; _dataframe := None;
       _sample_names := ∅;
       _info_vcf_keys := info_keys; _info_vcf_key_counts := [];
       _filter_vcf_keys := filter_keys;
       _format_vcf_keys := format_keys; _format_vcf_key_counts := [] |}
    vcf.

(** ** The materialized view: [__getitem__] and [__len__] *)

(** [range(count)] *)
Definition py_range (count : option Z) : result (list nat) :=
  match count with
  | None => Raise TypeError
  | Some n => Ok (seq 0 (Z.to_nat n))
  end.

(** The truth value of a cell. *)
Definition py_truth (v : pyval) : bool :=
  match v with
  | VNone => false
  | VBool b => b
  | VInt z => negb (z =? 0)
  | VFloat f => negb (float_eq_int f 0)
  | VStr s => negb (String.eqb s "")
  end.

(** The member of an enumeration that a cell names, found by value. *)
Definition member_of_cell {E} (members : list E) (value : E → Z) (v : pyval) : result E :=
  let found :=
    match v with
    | VInt n => filter (λ m, value m = n) members
    | VBool b => filter (λ m, value m = Z.b2z b) members
    | VFloat f => filter (λ m, float_eq_int f (value m) = true) members
    | VNone | VStr _ => []
    end in
  match found with
  | m :: _ => Ok m
  | [] => Raise ValueError
  end.

Definition str_le (a b : string) : Prop := String.leb a b = true.

#[local] Instance str_le_dec a b : Decision (str_le a b).
Proof. unfold str_le. apply _. Defined.

(** [sorted(l)] on strings *)
Definition sorted (l : list string) : list string := merge_sort str_le l.

(** The values of one sample: the loop over [format_keys]. *)
Definition call_data_of (self : VCFReader) (row : gmap string pyval)
    (format_keys : list string) (call : string) : result (list pyval) :=
  foldM (λ call_data k,
           count ← dict_get (_format_vcf_key_counts self) k;
           if decide (count = Some 1) then
             v ← py_getitem row (call +:+ "_" +:+ k);
             Ok (call_data ++ [v])
           else
             r ← py_range count;
             foldM (λ cd i,
                      v ← py_getitem row (call +:+ "_" +:+ k +:+ "_" +:+ pretty i);
                      Ok (cd ++ [v]))
                   call_data r)
        [] format_keys.

(** The INFO dictionary: the loop over [self._info_vcf_key_counts.items()]. *)
Definition info_of (self : VCFReader) (row : gmap string pyval)
  : result (gmap string info_entry) :=
  foldM (λ (info : gmap string info_entry) (kc : string * option Z),
           let '(k, count) := kc in
           if decide (count = Some 1) then
             v ← py_getitem row ("INFO_" +:+ k);
             Ok (<[k := Single v]> info)
           else
             r ← py_range count;
             vals ← foldM (λ vals i,
                             v ← py_getitem row ("INFO_" +:+ k +:+ "_" +:+ pretty i);
                             Ok (vals ++ [v]))
                          [] r;
             Ok (<[k := Multi vals]> info))
        ∅ (_info_vcf_key_counts self).

(** The set of sample names is gone through in the order [elements] lists
    it; Python fixes no order for a set. *)
Definition __getitem__ (self : VCFReader) (idx : Z) : result Variant :=
  frame ← match _dataframe self with
          | Some d => Ok d
          | None => Raise AttributeError
          end;
  row ← iloc frame idx;
  let format_keys := sorted ((_format_vcf_key_counts self).*1) in
  sz ← foldM (λ (acc : list (list pyval) * list VariantZygosity) call,
                call_data ← call_data_of self row format_keys call;
                cell ← py_getitem row (call +:+ "_zyg");
                zyg ← member_of_cell [NONE; NO_VARIANT; HETEROZYGOUS; HOMOZYGOUS]
                        zygosity_value cell;
                Ok (acc.1 ++ [call_data], acc.2 ++ [zyg]))
             ([], []) (elements (_sample_names self));
  var_filter ← foldM (λ var_filter k,
                        cell ← py_getitem row ("FILTER_" +:+ k);
                        if py_truth cell then Ok (var_filter ++ [k]) else Ok var_filter)
                     [] (_filter_vcf_keys self);
  info ← info_of self row;
  chrom ← py_getitem row "chrom";
  pos ← py_getitem row "start_pos";
  id ← py_getitem row "id";
  ref ← py_getitem row "ref";
  allele ← py_getitem row "alt";
  quality ← py_getitem row "quality";
  tcell ← py_getitem row "variant_type";
  ty ← member_of_cell [SNP; INSERTION; DELETION] type_value tcell;
  Ok {| v_chrom := chrom; v_pos := pos; v_id := id; v_ref := ref;
        v_allele := allele; v_quality := quality;
        v_filter := match var_filter with [] => None | _ :: _ => Some var_filter end;
        v_info := info; v_format := format_keys; v_type := ty;
        v_samples := sz.1; v_zygosity := sz.2;
        v_vcf := _vcf self; v_bams := _bams self |}.

Definition __len__ (self : VCFReader) : result Z :=
  match _dataframe self with
  | Some d => Ok (Z.of_nat (df_len d))
  | None => Raise TypeError
  end.

(** ** Notions the properties are stated with *)

(** Whether a column name has an underscore: the standard columns
    [chrom], [id], [ref], [alt] and [quality] have none, every column of a FILTER,
    INFO or FORMAT key has one. *)
Fixpoint has_underscore (s : string) : bool :=
  match s with
  | EmptyString => false
  | String c s' => bool_decide (c = "_"%char) || has_underscore s'
  end.

(** The names of the columns every row has. *)
Definition standard_columns : list string :=
  ["chrom"; "start_pos"; "end_pos"; "id"; "ref"; "alt"; "variant_type"; "quality"].

(** The cells of the column [k] of a dictionary of columns. *)
Definition cells (k : string) (d : gmap string (list pyval)) : list pyval :=
  default [] (d !! k).

(** The (record, alternate allele) pairs of a list of records, in order. *)
Definition record_alt_pairs (variant_list : list cyvcf2_Variant)
  : list (cyvcf2_Variant * string) :=
  variant_list ≫= (λ variant, pair variant <$> ALT variant).


(** The record indices below [n] that the worker [thread_id] takes. *)
Definition assigned_indices (self : VCFReader) (n : nat) (thread_id : Z)
  : list nat :=
  filter (λ idx, maps_to_thread self idx thread_id = Ok true) (seq 0 n).

(** The number of alleles among the indexed records of [l] that the worker
    [thread_id] takes. *)
Definition thread_alleles (self : VCFReader) (thread_id : Z)
    (l : list (nat * cyvcf2_Variant)) : nat :=
  sum_list ((λ iv, if bool_decide (maps_to_thread self iv.1 thread_id = Ok true)
                   then length (ALT iv.2) else 0%nat) <$> l).

(** The rows a worker holds at a point of its loop: those its buffer of
    records will give, and those of the tables already built. *)
Definition buffered_rows (st : list cyvcf2_Variant * list DataFrame) : nat :=
  (length (record_alt_pairs st.1) + sum_list (df_len <$> st.2))%nat.

(** The same file with every declared value type rewritten by [f]. *)
Definition retype (f : string → string) (vcf : cyvcf2_VCF) : cyvcf2_VCF :=
  {| samples := samples vcf;
     header_iter := alter f "Type" <$> header_iter vcf;
     get_header_type := λ k, h ← get_header_type vcf k; Ok (alter f "Type" h);
     variants := variants vcf;
     variants_in := variants_in vcf |}.




(** [counts] is the dictionary of the counts of [keys]: its keys are those
    of [keys], each once, and the count of a key is the one its header line
    gives for a record with one alternate allele. *)
Definition counts_of_keys (vcf : cyvcf2_VCF) (keys : list string)
    (counts : list (string * option Z)) : Prop :=
  NoDup counts.*1 ∧
  (∀ k, k ∈ counts.*1 ↔ k ∈ keys) ∧
  ∀ k, k ∈ keys →
    ∃ h n, get_header_type vcf k = Ok h ∧ h !! "Number" = Some n ∧
           dict_get counts k
           = _get_normalized_count n 1 (Z.of_nat (length (samples vcf))).

(** A cell is of the declared value type [ty]: a string, an integer or a
    float, or the null that stands for a missing value; a flag is a boolean
    and never null. *)
Definition has_header_type (ty : string) (v : pyval) : bool :=
  match v with
  | VNone => negb (String.eqb ty "Flag")
  | VBool _ => String.eqb ty "Flag"
  | VInt _ => String.eqb ty "Integer"
  | VFloat _ => String.eqb ty "Float"
  | VStr _ => String.eqb ty "String"
  end.

(** The dictionary [d'] is [d] with cells added at the end of columns, every
    added cell satisfying [P]. *)
Definition grows_by (P : pyval → Prop) (d d' : gmap string (list pyval)) : Prop :=
  ∀ col, ∃ new, cells col d' = cells col d ++ new ∧ Forall P new.


(** * Properties *)

(** ** Reasoning about the error monad *)

Lemma bind_Ok {A B} (m : result A) (f : A → result B) (b : B) :
  m ≫= f = Ok b ↔ ∃ a, m = Ok a ∧ f a = Ok b.
Proof.
  destruct m as [a|e]; simpl.
  - split; [eauto | by intros (? & [= <-] & ?)].
  - split; [done | by intros (? & ? & ?)].
Qed.

Lemma bind_Raise {A B} (m : result A) (f : A → result B) (e : exn) :
  m = Raise e → m ≫= f = Raise e.
Proof. by intros ->. Qed.

(** Split every successful bind among the hypotheses. *)
Ltac inv_bind :=
  repeat match goal with
    | H : _ ≫= _ = Ok _ |- _ => apply bind_Ok in H as (? & ? & H)
    | H : Ok _ = Ok _ |- _ => injection H as H
    | H : Raise _ = Ok _ |- _ => discriminate H
    end.

Lemma foldM_inv {A S} (P : S → Prop) (f : S → A → result S) (l : list A) :
  (∀ s x s', P s → f s x = Ok s' → P s') →
  ∀ s s', P s → foldM f s l = Ok s' → P s'.
Proof.
  intros Hf. induction l as [|x l IH]; simpl; intros s s' Hs H.
  - by injection H as <-.
  - apply bind_Ok in H as (s1 & H1 & H2). eauto.
Qed.

(** A loop whose every round extends a list read off the state. *)
Lemma foldM_accum {A S B} (m : S → list B) (g : A → list B)
    (f : S → A → result S) (l : list A) :
  (∀ s x s', f s x = Ok s' → m s' = m s ++ g x) →
  ∀ s s', foldM f s l = Ok s' → m s' = m s ++ (l ≫= g).
Proof.
  intros Hf. induction l as [|x l IH]; simpl; intros s s' H.
  - injection H as <-. by rewrite app_nil_r.
  - apply bind_Ok in H as (s1 & H1 & H2).
    rewrite (IH _ _ H2), (Hf _ _ _ H1). by rewrite <- app_assoc.
Qed.

(** ** The genotype classifier *)

(** C1: for a dataset that is not flagged as known false positives, and the
    first alternate allele (allele id 1, index 0), the genotype pairs (0,0),
    (0,1), (1,1), (-1,0) and (2,1) are classified, after the fix-up, as
    NO_VARIANT, HETEROZYGOUS, HOMOZYGOUS, NONE and NONE; in (2,1) one side
    names another allele, and the fix-up sets both sides to -1.  [rest] is
    what follows the pair in the genotype (the phasing flag). *)
Theorem zygosity_truth_table (self : VCFReader) (rest : list Z) :
  _is_fp self = false →
  zygosity_for_allele self (0 :: 0 :: rest) 0 = Ok NO_VARIANT ∧
  zygosity_for_allele self (0 :: 1 :: rest) 0 = Ok HETEROZYGOUS ∧
  zygosity_for_allele self (1 :: 1 :: rest) 0 = Ok HOMOZYGOUS ∧
  zygosity_for_allele self (-1 :: 0 :: rest) 0 = Ok NONE ∧
  zygosity_for_allele self (2 :: 1 :: rest) 0 = Ok NONE ∧
  fixup_genotype (2 :: 1 :: rest) 0 = Ok (-1 :: -1 :: rest).
Proof.
  intros Hfp.
  unfold zygosity_for_allele, fixup_genotype, _detect_zygosity.
  rewrite Hfp. unfold py_setitem. simpl.
  repeat split; repeat (case_decide; simpl; try lia); reflexivity.
Qed.

(** X2: the classifier in general: for a dataset that is not flagged, the
    genotype pair [(g0, g1)] and the allele of id [a = alt_idx + 1], the
    result is NONE unless each side is 0 or [a]; otherwise NO_VARIANT for
    (0,0), HOMOZYGOUS for (a,a) and HETEROZYGOUS for the two mixed pairs. *)
Theorem zygosity_for_allele_cases (self : VCFReader) (g0 g1 : Z) (rest : list Z)
    (alt_idx : nat) :
  _is_fp self = false →
  zygosity_for_allele self (g0 :: g1 :: rest) alt_idx
  = Ok (if bool_decide ((g0 = 0 ∨ g0 = Z.of_nat alt_idx + 1)
                        ∧ (g1 = 0 ∨ g1 = Z.of_nat alt_idx + 1))
        then if bool_decide (g0 = g1)
             then if bool_decide (g0 = 0) then NO_VARIANT else HOMOZYGOUS
             else HETEROZYGOUS
        else NONE).
Proof.
  intros Hfp.
  unfold zygosity_for_allele, fixup_genotype, _detect_zygosity, fix_gt.
  rewrite Hfp. unfold py_setitem. simpl.
  repeat (case_decide; simpl; try lia);
    repeat (case_bool_decide; simpl; try lia); try reflexivity.
  all: exfalso; lia.
Qed.

(** C7: when the dataset is flagged as known false positives, the classifier
    answers NO_VARIANT for every genotype, whatever it holds (an empty
    genotype included: nothing of it is read). *)
Theorem false_positive_override (self : VCFReader) (gt : list Z) :
  _is_fp self = true → _detect_zygosity self gt = Ok NO_VARIANT.
Proof. intros Hfp. unfold _detect_zygosity. by rewrite Hfp. Qed.

(** ** The arity of a field *)

Lemma pretty_N_char_digit (d : N) :
  (d < 10)%N →
  is_ascii_digit (pretty_N_char d) = true ∧ digit_value (pretty_N_char d) = Z.of_N d.
Proof.
  intros Hd.
  assert (d = 0 ∨ d = 1 ∨ d = 2 ∨ d = 3 ∨ d = 4 ∨ d = 5 ∨ d = 6 ∨ d = 7
          ∨ d = 8 ∨ d = 9)%N as Hcases by lia.
  destruct_or!; subst d; by split.
Qed.

Lemma isdigit_all_digits (s : string) : isdigit s = true → all_digits s = true.
Proof. by destruct s. Qed.

Lemma isdigit_pretty_N_go (x : N) :
  ∀ s, isdigit s = true → isdigit (pretty_N_go x s) = true.
Proof.
  induction (N.lt_wf_0 x) as [x _ IH]. intros s Hs.
  destruct (decide (x = 0)%N) as [->|Hx]; [by rewrite pretty_N_go_0|].
  rewrite pretty_N_go_step by lia.
  apply IH; [apply N.div_lt; lia|].
  simpl. apply andb_true_iff. split.
  - apply pretty_N_char_digit, N.mod_lt. lia.
  - by apply isdigit_all_digits.
Qed.

Lemma decimal_value_pretty_N_go (x : N) :
  ∃ p : Z, ∀ s acc,
    decimal_value_from acc (pretty_N_go x s) = decimal_value_from (acc * p + Z.of_N x) s.
Proof.
  induction (N.lt_wf_0 x) as [x _ IH].
  destruct (decide (x = 0)%N) as [->|Hx].
  - exists 1. intros s acc. rewrite pretty_N_go_0. f_equal. lia.
  - destruct (IH (x `div` 10)%N) as [p Hp]; [apply N.div_lt; lia|].
    exists (10 * p). intros s acc.
    rewrite pretty_N_go_step, Hp by lia. simpl. f_equal.
    destruct (pretty_N_char_digit (x `mod` 10)%N) as [_ ->]; [apply N.mod_lt; lia|].
    rewrite (N.div_mod x 10) at 3 by lia.
    rewrite N2Z.inj_add, N2Z.inj_mul. lia.
Qed.

(** The decimal numeral of a natural number is a digit string that reads
    back as the number. *)
Lemma pretty_N_decimal (n : N) :
  isdigit (pretty n) = true ∧ decimal_value (pretty n) = Z.of_N n.
Proof.
  unfold pretty, pretty_N. case_decide as Hn; [by subst n|].
  split.
  - rewrite pretty_N_go_step by lia.
    apply isdigit_pretty_N_go. simpl.
    destruct (pretty_N_char_digit (n `mod` 10)%N) as [-> _]; [apply N.mod_lt; lia|done].
  - destruct (decimal_value_pretty_N_go n) as [p Hp].
    unfold decimal_value. rewrite Hp. simpl. lia.
Qed.

Lemma isdigit_not_code (s : string) :
  isdigit s = true → s ≠ "A" ∧ s ≠ "R" ∧ s ≠ "G" ∧ s ≠ ".".
Proof. intros Hs. repeat split; intros ->; discriminate Hs. Qed.

(** C2: with [a] alternate alleles and [s] samples, the number of values of a
    field is [a] for the code A, [a + 1] for R, [s] for G, 1 for the dot, and
    for a string of decimal digits the integer it reads as; in particular the
    numeral of any natural number [n] resolves to [n]. *)
Theorem normalized_count_table (a s : Z) :
  _get_normalized_count "A" a s = Ok (Some a) ∧
  _get_normalized_count "R" a s = Ok (Some (a + 1)) ∧
  _get_normalized_count "G" a s = Ok (Some s) ∧
  _get_normalized_count "." a s = Ok (Some 1) ∧
  (∀ d, isdigit d = true → _get_normalized_count d a s = Ok (Some (decimal_value d))) ∧
  (∀ n : N, _get_normalized_count (pretty n) a s = Ok (Some (Z.of_N n))).
Proof.
  assert (∀ d, isdigit d = true →
               _get_normalized_count d a s = Ok (Some (decimal_value d))) as Hdigits.
  { intros d Hd. destruct (isdigit_not_code d Hd) as (? & ? & ? & ?).
    unfold _get_normalized_count. repeat case_decide; try done.
    by rewrite Hd, (int_of_str_isdigit d Hd). }
  repeat split; try done.
  intros n. destruct (pretty_N_decimal n) as [Hd <-]. by apply Hdigits.
Qed.

(** C10: a Number code that is none of A, R, G and the dot, and is not a
    string of decimal digits, has no count: the function returns [None], and
    the list of nulls that stands in for an absent field of that code cannot
    be built, [[None] * None] being a type error. *)
Theorem unknown_code_has_no_count (header_number : string)
    (vcf : cyvcf2_VCF) (variant : cyvcf2_Variant) (a s : Z) :
  header_number ∉ ["A"; "R"; "G"; "."] →
  isdigit header_number = false →
  _get_normalized_count header_number a s = Ok None ∧
  null_values vcf variant header_number = Raise TypeError.
Proof.
  intros Hcode Hdigit.
  assert (∀ a s, _get_normalized_count header_number a s = Ok None) as Hnone.
  { intros a' s'. unfold _get_normalized_count. rewrite Hdigit.
    repeat case_decide; try done; subst; exfalso; apply Hcode; set_solver. }
  split; [apply Hnone|].
  unfold null_values. by rewrite Hnone.
Qed.

(** ** Decomposition: one row per record and alternate allele *)

Lemma has_underscore_app (a b : string) :
  has_underscore (a +:+ b) = has_underscore a || has_underscore b.
Proof. induction a as [|c a IH]; simpl; [done|]. by rewrite IH, orb_assoc. Qed.

Ltac solve_marked :=
  rewrite ?has_underscore_app; simpl; rewrite ?orb_true_r; reflexivity.

Section Columns.

Lemma append_lookup_ne d k v k0 : k ≠ k0 → append d k v !! k0 = d !! k0.
Proof. intros. unfold append. by rewrite lookup_insert_ne. Qed.

Lemma append_cells_ne d k v k0 : k ≠ k0 → cells k0 (append d k v) = cells k0 d.
Proof. intros. unfold cells. by rewrite append_lookup_ne. Qed.

Lemma append_cells_eq d k v : cells k (append d k v) = cells k d ++ [v].
Proof. unfold cells, append. by rewrite lookup_insert_eq. Qed.

(** Appending under a name with an underscore leaves the columns whose name
    has none as they were. *)
Lemma append_marked d k v k0 :
  has_underscore k = true → has_underscore k0 = false →
  append d k v !! k0 = d !! k0.
Proof. intros Hk Hk0. apply append_lookup_ne. intros ->. congruence. Qed.

Lemma filter_columns_lookup self variant d k0 :
  has_underscore k0 = false → filter_columns self variant d !! k0 = d !! k0.
Proof.
  intros Hk0. unfold filter_columns.
  generalize dependent d.
  induction (_filter_vcf_keys self) as [|c cs IH]; intros d; simpl; [done|].
  rewrite IH. apply append_marked; [solve_marked | done].
Qed.

Variable k0 : string.
Hypothesis plain_k0 : has_underscore k0 = false.

(** A loop that appends under marked names. *)
Lemma indexed_columns_lookup (convert : pyval → result pyval) (val : list pyval)
    (df_key : string) (l : list nat) d d' :
  has_underscore df_key = true →
  foldM (λ d i,
           v ← py_index val i;
           c ← convert v;
           Ok (append d (df_key +:+ "_" +:+ pretty i) c)) d l = Ok d' →
  d' !! k0 = d !! k0.
Proof.
  intros Hkey.
  apply (foldM_inv (λ d', d' !! k0 = d !! k0)); [|done].
  intros s i s' Hs Hstep. inv_bind. subst s'.
  rewrite append_marked; [done | solve_marked; by rewrite Hkey | done].
Qed.

Lemma info_column_lookup vcf variant alt_idx d info_col d' :
  info_column vcf variant alt_idx d info_col = Ok d' → d' !! k0 = d !! k0.
Proof.
  unfold info_column. intros Hstep. inv_bind.
  repeat case_decide; try destruct (isdigit _); inv_bind;
    repeat case_decide; inv_bind; subst;
    rewrite ?append_marked by (done || solve_marked); try done.
  all: eapply indexed_columns_lookup; [|eassumption]; solve_marked.
Qed.

Lemma format_column_lookup self vcf variant alt_idx format_col d sample d' :
  format_column self vcf variant alt_idx format_col d sample = Ok d' →
  d' !! k0 = d !! k0.
Proof.
  unfold format_column. destruct sample as [sample_idx sample_name]. intros Hstep.
  repeat case_decide; inv_bind;
    repeat case_decide; try destruct (isdigit _); inv_bind;
    repeat case_decide; inv_bind; subst;
    rewrite ?append_marked by (done || solve_marked); try done.
  all: eapply indexed_columns_lookup; [|eassumption]; solve_marked.
Qed.

(** The INFO and FORMAT loops of one row leave the column [k0] alone. *)
Lemma field_loops_lookup self vcf variant alt_idx d d' :
  (df_dict ← foldM (info_column vcf variant alt_idx) d (_info_vcf_keys self);
   foldM (λ d format_col,
            foldM (format_column self vcf variant alt_idx format_col) d
                  (enumerate (samples vcf)))
         df_dict (_format_vcf_keys self)) = Ok d' →
  d' !! k0 = d !! k0.
Proof.
  intros Hrow. apply bind_Ok in Hrow as (d1 & H1 & H2).
  transitivity (d1 !! k0).
  - revert H2. apply (foldM_inv (λ d', d' !! k0 = d1 !! k0)); [|done].
    intros s format_col s' Hs. rewrite <- Hs.
    apply (foldM_inv (λ d', d' !! k0 = s !! k0)); [|done].
    intros t sample t' Ht Hstep. rewrite <- Ht.
    by eapply format_column_lookup.
  - revert H1. apply (foldM_inv (λ d', d' !! k0 = d !! k0)); [|done].
    intros s info_col s' Hs Hstep. rewrite <- Hs.
    by eapply info_column_lookup.
Qed.

End Columns.

Section RowCount.

Lemma alt_row_cells self vcf variant d alt_idx alt d' :
  alt_row self vcf variant d (alt_idx, alt) = Ok d' →
  cells "chrom" d' = cells "chrom" d ++ [VStr (CHROM variant)] ∧
  cells "ref" d' = cells "ref" d ++ [VStr (REF variant)] ∧
  cells "alt" d' = cells "alt" d ++ [VStr alt].
Proof.
  unfold alt_row. intros Hrow. cbv zeta in Hrow.
  repeat split; unfold cells.
  all: erewrite field_loops_lookup by (eassumption || reflexivity).
  all: rewrite filter_columns_lookup by reflexivity.
  all: rewrite ?append_lookup_ne by done.
  all: unfold append at 1; rewrite lookup_insert_eq; simpl.
  all: by rewrite ?append_lookup_ne by done.
Qed.

Lemma enumerate_from_bind {A B} (h : A → B) (l : list A) (i : nat) :
  enumerate_from i l ≫= (λ p, [h p.2]) = h <$> l.
Proof.
  revert i. induction l as [|x l IH]; intros i; [done|].
  simpl. by rewrite IH.
Qed.

Lemma record_alt_pairs_fmap {B} (cell : cyvcf2_Variant → string → B) variant_list :
  variant_list ≫= (λ variant, cell variant <$> ALT variant)
  = (λ p, cell p.1 p.2) <$> record_alt_pairs variant_list.
Proof.
  unfold record_alt_pairs.
  induction variant_list as [|variant l IH]; [done|].
  rewrite !bind_cons, fmap_app, IH. f_equal.
  by rewrite <- list_fmap_compose.
Qed.

Lemma record_alt_pairs_length variant_list :
  length (record_alt_pairs variant_list)
  = sum_list ((length ∘ ALT) <$> variant_list).
Proof.
  unfold record_alt_pairs.
  induction variant_list as [|variant l IH]; [done|].
  rewrite bind_cons, length_app, length_fmap, IH. done.
Qed.

(** A column that every row extends by the cell of its pair holds, in the
    end, the cells of all pairs in order. *)
Lemma create_df_dict_column (k : string) (cell : cyvcf2_Variant → string → pyval)
    self vcf variant_list d :
  (∀ variant d alt_idx alt d',
     alt_row self vcf variant d (alt_idx, alt) = Ok d' →
     cells k d' = cells k d ++ [cell variant alt]) →
  create_df_dict self vcf variant_list = Ok d →
  cells k d = (λ p, cell p.1 p.2) <$> record_alt_pairs variant_list.
Proof.
  intros Hrow Hd. unfold create_df_dict in Hd.
  rewrite <- record_alt_pairs_fmap.
  apply (foldM_accum (cells k) (λ variant, cell variant <$> ALT variant)) in Hd;
    [exact Hd|].
  intros s variant s' Hs.
  apply (foldM_accum (cells k) (λ p, [cell variant p.2])) in Hs.
  - unfold enumerate in Hs. by rewrite Hs, enumerate_from_bind.
  - intros t [alt_idx alt] t'. apply Hrow.
Qed.

(** Either no row has been written, or the column [alt] is there. *)
Lemma create_df_dict_started self vcf variant_list d :
  create_df_dict self vcf variant_list = Ok d → d = ∅ ∨ is_Some (d !! "alt").
Proof.
  unfold create_df_dict.
  apply (foldM_inv (λ d, d = ∅ ∨ is_Some (d !! "alt"))); [|by left].
  intros s variant s' Hs.
  apply (foldM_inv (λ d, d = ∅ ∨ is_Some (d !! "alt"))); [|done].
  intros t [alt_idx alt] t' _ Hrow. right.
  apply alt_row_cells in Hrow as (_ & _ & Halt). unfold cells in Halt.
  destruct (t' !! "alt"); [done|].
  by destruct (default [] (t !! "alt")).
Qed.

(** A frame built from a dictionary has its columns, each as long as the
    frame. *)
Lemma from_dict_Ok d frame :
  from_dict d = Ok frame →
  df_columns frame = d ∧
  (∀ k c, d !! k = Some c → length c = df_len frame) ∧
  (d = ∅ → df_len frame = 0%nat).
Proof.
  unfold from_dict. destruct (map_to_list d) as [|[k1 c1] l] eqn:Hl.
  - intros [= <-]. apply map_to_list_empty_iff in Hl as ->. by repeat split.
  - destruct (forallb _ _) eqn:Hall; [|done]. intros [= <-]. simpl.
    repeat split.
    + intros k c Hk. rewrite forallb_forall in Hall.
      apply (Nat.eqb_eq (length c)), (Hall (k, c)).
      apply list_elem_of_In. rewrite <- Hl. by apply elem_of_map_to_list.
    + intros ->. by rewrite map_to_list_empty in Hl.
Qed.

Lemma create_df_alt_cells self vcf variant_list d :
  create_df_dict self vcf variant_list = Ok d →
  cells "alt" d = (λ p, VStr p.2) <$> record_alt_pairs variant_list.
Proof.
  apply (create_df_dict_column "alt" (λ _ alt, VStr alt)).
  intros variant d0 alt_idx alt d1 Hrow. by apply alt_row_cells in Hrow as (_ & _ & ?).
Qed.

(** The table has as many rows as there are (record, allele) pairs. *)
Lemma create_df_rows self vcf variant_list frame :
  _create_df self vcf variant_list = Ok frame →
  df_len frame = length (record_alt_pairs variant_list).
Proof.
  unfold _create_df. intros Hdf.
  apply bind_Ok in Hdf as (d & Hd & Hframe).
  apply from_dict_Ok in Hframe as (_ & Hlen & Hempty).
  pose proof (create_df_alt_cells _ _ _ _ Hd) as Halt. unfold cells in Halt.
  rewrite <- (length_fmap (λ p, VStr p.2)), <- Halt.
  destruct (create_df_dict_started _ _ _ _ Hd) as [Hnone|[c Hc]].
  - rewrite (Hempty Hnone). subst d. by rewrite lookup_empty.
  - rewrite Hc. simpl. symmetry. by eapply Hlen.
Qed.

(** *** A reader without INFO, FILTER and FORMAT keys builds its table *)

Section NoKeys.
Variable self : VCFReader.
Variable vcf : cyvcf2_VCF.
Hypothesis no_info : _info_vcf_keys self = [].
Hypothesis no_filter : _filter_vcf_keys self = [].
Hypothesis no_format : _format_vcf_keys self = [].

(** Every standard column is there, with [n] cells, and no other column. *)
Definition standard_frame (n : nat) (d : gmap string (list pyval)) : Prop :=
  ∀ k, (k ∈ standard_columns → ∃ c, d !! k = Some c ∧ length c = n) ∧
       (k ∉ standard_columns → d !! k = None).

Lemma alt_row_no_keys variant d a :
  ∃ d', alt_row self vcf variant d a = Ok d' ∧
        ∀ k, (k ∈ standard_columns → ∃ v, d' !! k = Some (cells k d ++ [v])) ∧
             (k ∉ standard_columns → d' !! k = d !! k).
Proof.
  destruct a as [alt_idx alt]. eexists. split.
  - unfold alt_row, filter_columns. rewrite no_info, no_filter, no_format.
    simpl. reflexivity.
  - intros k. split.
    + intros Hk. unfold standard_columns in Hk.
      repeat (apply elem_of_cons in Hk as [->|Hk]); [..|by apply elem_of_nil in Hk].
      all: eexists; rewrite ?append_lookup_ne by done.
      all: unfold append at 1; rewrite lookup_insert_eq; do 2 f_equal.
      all: by rewrite ?append_lookup_ne by done.
    + intros Hk. rewrite !append_lookup_ne; [done|..].
      all: intros <-; apply Hk; unfold standard_columns; repeat constructor.
Qed.

Lemma alt_row_standard_frame variant d a n :
  d = ∅ ∧ n = 0%nat ∨ standard_frame n d →
  ∃ d', alt_row self vcf variant d a = Ok d' ∧ standard_frame (S n) d'.
Proof.
  intros Hd. destruct (alt_row_no_keys variant d a) as (d' & Hrow & Hd').
  exists d'. split; [done|]. intros k. split.
  - intros Hk. destruct (proj1 (Hd' k) Hk) as [v ->]. eexists. split; [done|].
    rewrite length_app. simpl. unfold cells.
    destruct Hd as [[-> ->]|Hd]; [by rewrite lookup_empty|].
    destruct (proj1 (Hd k) Hk) as (c & -> & <-). simpl. lia.
  - intros Hk. rewrite (proj2 (Hd' k) Hk).
    destruct Hd as [[-> _]|Hd]; [by rewrite lookup_empty|]. by apply Hd.
Qed.

Lemma alt_rows_standard_frame variant (l : list (nat * string)) :
  ∀ d n, d = ∅ ∧ n = 0%nat ∨ standard_frame n d →
         ∃ d', foldM (alt_row self vcf variant) d l = Ok d' ∧
               (d' = ∅ ∧ (n + length l = 0)%nat ∨ standard_frame (n + length l) d').
Proof.
  induction l as [|a l IH]; intros d n Hd; simpl.
  - exists d. split; [done|]. by rewrite Nat.add_0_r.
  - destruct (alt_row_standard_frame variant d a n Hd) as (d1 & -> & Hd1). simpl.
    destruct (IH d1 (S n) (or_intror Hd1)) as (d' & -> & Hd').
    exists d'. split; [done|]. by rewrite <- Nat.add_succ_comm.
Qed.

Lemma create_df_dict_standard_frame variant_list :
  ∀ d n, d = ∅ ∧ n = 0%nat ∨ standard_frame n d →
         ∃ d' m, foldM (λ d variant,
                          foldM (alt_row self vcf variant) d (enumerate (ALT variant)))
                       d variant_list = Ok d' ∧
                 (d' = ∅ ∧ m = 0%nat ∨ standard_frame m d').
Proof.
  induction variant_list as [|variant l IH]; intros d n Hd; simpl.
  - by exists d, n.
  - destruct (alt_rows_standard_frame variant (enumerate (ALT variant)) d n Hd)
      as (d1 & -> & Hd1). simpl. by eapply IH.
Qed.

Lemma from_dict_standard_frame d n :
  d = ∅ ∧ n = 0%nat ∨ standard_frame n d → is_Ok (from_dict d) = true.
Proof.
  intros Hd. unfold from_dict.
  destruct (map_to_list d) as [|[k1 c1] l] eqn:Hl; [done|].
  destruct Hd as [[-> _]|Hd]; [by rewrite map_to_list_empty in Hl|].
  assert (∀ k c, d !! k = Some c → length c = n) as Hn.
  { intros k c Hk. destruct (decide (k ∈ standard_columns)) as [Hin|Hout].
    - destruct (proj1 (Hd k) Hin) as (c' & Hc' & <-). congruence.
    - rewrite (proj2 (Hd k) Hout) in Hk. done. }
  assert (forallb (λ kc : string * list pyval, length kc.2 =? length c1)%nat
                  ((k1, c1) :: l) = true) as ->; [|done].
  apply forallb_forall. intros [k c] Hin. apply Nat.eqb_eq. simpl.
  rewrite <- Hl in Hin. apply list_elem_of_In, elem_of_map_to_list in Hin.
  rewrite (Hn _ _ Hin). symmetry. apply (Hn k1).
  apply elem_of_map_to_list. rewrite Hl. left.
Qed.

(** X3: with no INFO, FILTER or FORMAT key to project, decomposition does
    not raise, whatever the records. *)
Theorem create_df_no_keys variant_list :
  is_Ok (_create_df self vcf variant_list) = true.
Proof.
  unfold _create_df, create_df_dict.
  destruct (create_df_dict_standard_frame variant_list ∅ 0 (or_introl (conj eq_refl eq_refl)))
    as (d & m & -> & Hd). simpl.
  by eapply from_dict_standard_frame.
Qed.

End NoKeys.

End RowCount.

(** C3: the table built from a list of records has exactly one row per
    (record, alternate allele) pair, taken record by record and, within a
    record, in the order of its alternate alleles: the number of rows is the
    number of pairs, which is the sum of the records' allele counts; every
    column holds one cell per row; and the columns [chrom], [ref] and [alt]
    hold, row by row, the record and the allele of the pair. *)
Theorem create_df_one_row_per_allele (self : VCFReader)
    (vcf : cyvcf2_VCF) (variant_list : list cyvcf2_Variant) (frame : DataFrame) :
  _create_df self vcf variant_list = Ok frame →
  df_len frame = length (record_alt_pairs variant_list) ∧
  df_len frame = sum_list ((length ∘ ALT) <$> variant_list) ∧
  (∀ k c, df_columns frame !! k = Some c → length c = df_len frame) ∧
  cells "chrom" (df_columns frame)
    = (λ p, VStr (CHROM p.1)) <$> record_alt_pairs variant_list ∧
  cells "ref" (df_columns frame)
    = (λ p, VStr (REF p.1)) <$> record_alt_pairs variant_list ∧
  cells "alt" (df_columns frame)
    = (λ p, VStr p.2) <$> record_alt_pairs variant_list.
Proof.
  intros Hdf. pose proof (create_df_rows _ _ _ _ Hdf) as Hrows.
  unfold _create_df in Hdf.
  apply bind_Ok in Hdf as (d & Hd & Hframe).
  apply from_dict_Ok in Hframe as (-> & Hlen & _).
  split; [exact Hrows|].
  split; [by rewrite Hrows, record_alt_pairs_length|].
  split; [exact Hlen|].
  repeat split.
  - apply (create_df_dict_column "chrom" (λ variant _, VStr (CHROM variant))
             self vcf); [|exact Hd].
    intros variant d0 alt_idx alt d1 Hrow. by apply alt_row_cells in Hrow as (? & _).
  - apply (create_df_dict_column "ref" (λ variant _, VStr (REF variant))
             self vcf); [|exact Hd].
    intros variant d0 alt_idx alt d1 Hrow. by apply alt_row_cells in Hrow as (_ & ? & _).
  - by eapply create_df_alt_cells.
Qed.

(** ** The assignment of records to workers *)

Lemma maps_to_thread_iff (self : VCFReader) (idx : nat) (w : Z) :
  _chunksize self ≠ 0 → 1 ≤ _num_threads self →
  maps_to_thread self idx w = Ok true
  ↔ w = (Z.of_nat idx `div` _chunksize self) `mod` _num_threads self.
Proof.
  intros Hc Hw. unfold maps_to_thread, py_floordiv, py_mod.
  repeat case_decide; try lia. simpl.
  case_bool_decide; split; intros Heq; try done; by subst.
Qed.

(** C4: with a chunk size and a worker count of at least 1, the test
    [(idx // chunksize) % num_threads == thread_id] gives every record index
    to exactly one worker among 0 .. num_threads - 1, and the indices below
    [n] that the workers take are, together, all the indices below [n]. *)
Theorem chunk_coverage (self : VCFReader) (n : nat) :
  1 ≤ _chunksize self → 1 ≤ _num_threads self →
  (∀ idx : nat, ∃ w,
     0 ≤ w < _num_threads self ∧
     maps_to_thread self idx w = Ok true ∧
     ∀ w', maps_to_thread self idx w' = Ok true → w' = w) ∧
  (∀ idx : nat,
     (∃ w, 0 ≤ w < _num_threads self ∧ idx ∈ assigned_indices self n w)
     ↔ (idx < n)%nat).
Proof.
  intros Hc Hw.
  assert (∀ idx : nat, ∃ w,
            0 ≤ w < _num_threads self ∧
            maps_to_thread self idx w = Ok true ∧
            ∀ w', maps_to_thread self idx w' = Ok true → w' = w) as Hone.
  { intros idx.
    exists ((Z.of_nat idx `div` _chunksize self) `mod` _num_threads self).
    split; [apply Z.mod_pos_bound; lia|].
    split; [apply maps_to_thread_iff; [lia|done|done]|].
    intros w'. apply maps_to_thread_iff; [lia|done]. }
  split; [exact Hone|].
  intros idx. unfold assigned_indices. split.
  - intros (w & _ & Hin). apply list_elem_of_filter in Hin as [_ Hin].
    apply elem_of_seq in Hin. lia.
  - intros Hidx. destruct (Hone idx) as (w & Hw' & Hmaps & _).
    exists w. split; [done|].
    apply list_elem_of_filter. split; [done|]. apply elem_of_seq. lia.
Qed.

(** ** The rows of the final table *)

Lemma sum_list_fmap_plus {A} (f g : A → nat) (l : list A) :
  sum_list ((λ a, f a + g a)%nat <$> l) = (sum_list (f <$> l) + sum_list (g <$> l))%nat.
Proof. induction l as [|a l IH]; csimpl; [done|]. rewrite IH. unfold id. lia. Qed.

Lemma sum_list_fmap_zero {A} (f : A → nat) (l : list A) :
  (∀ a, f a = 0%nat) → sum_list (f <$> l) = 0%nat.
Proof. intros Hf. induction l as [|a l IH]; csimpl; [done|]. by rewrite IH, Hf. Qed.


Lemma fmap_ext_all {A B} (f g : A → B) (l : list A) :
  (∀ a, f a = g a) → f <$> l = g <$> l.
Proof. intros Hfg. induction l as [|a l IH]; csimpl; [done|]. by rewrite Hfg, IH. Qed.

Lemma sum_list_snoc (l : list nat) (n : nat) :
  sum_list (l ++ [n]) = (sum_list l + n)%nat.
Proof. induction l as [|a l IH]; csimpl; [done|]. rewrite IH. unfold id. lia. Qed.

(** Over a list without repetition, the sum of [a] at [w0] and 0 elsewhere. *)
Lemma sum_list_indicator (l : list Z) (w0 : Z) (a : nat) :
  NoDup l →
  sum_list ((λ w, if bool_decide (w = w0) then a else 0%nat) <$> l)
  = if bool_decide (w0 ∈ l) then a else 0%nat.
Proof.
  induction 1 as [|w l Hw _ IH]; csimpl; [done|].
  rewrite IH. unfold id. destruct (decide (w = w0)) as [->|Hne].
  - rewrite (bool_decide_eq_true_2 (w0 = w0)) by done.
    rewrite (bool_decide_eq_false_2 (w0 ∈ l)) by done.
    rewrite bool_decide_eq_true_2 by left. lia.
  - rewrite (bool_decide_eq_false_2 (w = w0)) by done. simpl.
    apply (f_equal (λ b : bool, if b then a else 0%nat)), bool_decide_ext.
    rewrite elem_of_cons. split; [by right|]. intros [->|Hin]; [congruence|done].
Qed.

Lemma record_alt_pairs_snoc variant_list variant :
  length (record_alt_pairs (variant_list ++ [variant]))
  = (length (record_alt_pairs variant_list) + length (ALT variant))%nat.
Proof.
  rewrite !record_alt_pairs_length, fmap_app. csimpl. by rewrite sum_list_snoc.
Qed.

Lemma frames_rows_snoc (df_list : list DataFrame) (d : DataFrame) :
  sum_list (df_len <$> (df_list ++ [d])) = (sum_list (df_len <$> df_list) + df_len d)%nat.
Proof. rewrite fmap_app. csimpl. by rewrite sum_list_snoc. Qed.

Lemma thread_alleles_nil self w : thread_alleles self w [] = 0%nat.
Proof. done. Qed.

Lemma thread_alleles_cons self w iv l :
  thread_alleles self w (iv :: l)
  = ((if bool_decide (maps_to_thread self iv.1 w = Ok true)
      then length (ALT iv.2) else 0) + thread_alleles self w l)%nat.
Proof. done. Qed.

(** One round of the worker's loop adds the alleles of the record, if the
    record is the worker's, to the rows it holds. *)
Lemma parse_step_rows self vcf w st iv st' :
  parse_step self vcf w st iv = Ok st' →
  buffered_rows st' = (buffered_rows st + thread_alleles self w [iv])%nat.
Proof.
  unfold parse_step, buffered_rows. destruct st as [variant_list df_list].
  destruct iv as [idx variant]. rewrite thread_alleles_cons, thread_alleles_nil. simpl.
  intros Hstep. apply bind_Ok in Hstep as (mine & Hmine & Hstep). rewrite Hmine.
  destruct mine; simpl.
  - apply bind_Ok in Hstep as (m & _ & Hstep). case_decide.
    + apply bind_Ok in Hstep as (d & Hd & [= <-]). simpl.
      apply create_df_rows in Hd.
      rewrite frames_rows_snoc, Hd, record_alt_pairs_snoc. simpl. lia.
    + injection Hstep as <-. simpl. rewrite record_alt_pairs_snoc. lia.
  - injection Hstep as <-. simpl. lia.
Qed.

Lemma parse_loop_rows self vcf w l :
  ∀ st st', foldM (parse_step self vcf w) st l = Ok st' →
            buffered_rows st' = (buffered_rows st + thread_alleles self w l)%nat.
Proof.
  induction l as [|iv l IH]; intros st st' Hloop; simpl in Hloop.
  - injection Hloop as <-. rewrite thread_alleles_nil. lia.
  - apply bind_Ok in Hloop as (st1 & Hstep & Hloop).
    rewrite (IH _ _ Hloop), (parse_step_rows _ _ _ _ _ _ Hstep).
    rewrite (thread_alleles_cons _ _ iv l), (thread_alleles_cons _ _ iv []).
    rewrite thread_alleles_nil. lia.
Qed.

Lemma concat_rows dfs frame :
  concat dfs = Ok frame → df_len frame = sum_list (df_len <$> dfs).
Proof. destruct dfs; [done|]. by intros [= <-]. Qed.

(** The table of a worker has one row per allele of the records it takes. *)
Lemma parse_rows self vcf w frame :
  _parse_vcf_cyvcf self vcf w = Ok frame →
  df_len frame = thread_alleles self w (enumerate (generator self vcf)).
Proof.
  unfold _parse_vcf_cyvcf. intros Hparse.
  apply bind_Ok in Hparse as ([variant_list df_list] & Hloop & Hparse).
  apply parse_loop_rows in Hloop. unfold buffered_rows in Hloop. simpl in Hloop.
  apply bind_Ok in Hparse as (df_list' & Hflush & Hparse).
  assert (sum_list (df_len <$> df_list')
          = thread_alleles self w (enumerate (generator self vcf))) as <-.
  { rewrite <- Hloop. destruct variant_list as [|variant rest].
    - by injection Hflush as <-.
    - apply bind_Ok in Hflush as (d & Hd & [= <-]).
      apply create_df_rows in Hd. rewrite frames_rows_snoc, Hd. lia. }
  destruct df_list' as [|d dl]; [by injection Hparse as <-|].
  by apply concat_rows.
Qed.

(** A worker that gets through a record has divided by the chunk size. *)
Lemma parse_chunksize self vcf w frame :
  _parse_vcf_cyvcf self vcf w = Ok frame →
  generator self vcf = [] ∨ _chunksize self ≠ 0.
Proof.
  unfold _parse_vcf_cyvcf. intros Hparse.
  destruct (generator self vcf) as [|variant rest]; [by left|right].
  apply bind_Ok in Hparse as (st & Hloop & _). simpl in Hloop.
  apply bind_Ok in Hloop as (st1 & Hstep & _).
  apply bind_Ok in Hstep as (mine & Hmine & _).
  unfold maps_to_thread, py_floordiv in Hmine. by case_decide.
Qed.

Lemma mapM_rows {A} (g : A → result DataFrame) (h : A → nat) (l : list A) :
  (∀ a frame, g a = Ok frame → df_len frame = h a) →
  ∀ frames, mapM g l = Ok frames →
            sum_list (df_len <$> frames) = sum_list (h <$> l).
Proof.
  intros Hg. induction l as [|a l IH]; intros frames Hmap; simpl in Hmap.
  - by injection Hmap as <-.
  - apply bind_Ok in Hmap as (frame & Hframe & Hmap).
    apply bind_Ok in Hmap as (rest & Hrest & [= <-]). csimpl.
    by rewrite (Hg _ _ Hframe), (IH _ Hrest).
Qed.

(** Every record is some worker's, and only one's: summed over the workers,
    the alleles they take are the alleles of all records. *)
Lemma thread_alleles_total self (l : list (nat * cyvcf2_Variant)) :
  _chunksize self ≠ 0 → 1 ≤ _num_threads self →
  sum_list ((λ w, thread_alleles self w l) <$> seqZ 0 (_num_threads self))
  = sum_list ((λ iv, length (ALT iv.2)) <$> l).
Proof.
  intros Hc Hw. induction l as [|iv l IH]; csimpl.
  - by apply sum_list_fmap_zero.
  - rewrite <- IH.
    pose (w0 := (Z.of_nat iv.1 `div` _chunksize self) `mod` _num_threads self).
    rewrite (fmap_ext_all (λ w, thread_alleles self w (iv :: l))
               (λ w, (if bool_decide (w = w0) then length (ALT iv.2) else 0)
                     + thread_alleles self w l)%nat).
    + rewrite sum_list_fmap_plus. f_equal.
      rewrite sum_list_indicator by apply NoDup_seqZ.
      rewrite bool_decide_eq_true_2; [done|].
      apply elem_of_seqZ.
      pose proof (Z.mod_pos_bound (Z.of_nat iv.1 `div` _chunksize self)
                    (_num_threads self)). lia.
    + intros w. rewrite thread_alleles_cons. f_equal.
      apply (f_equal (λ b : bool, if b then length (ALT iv.2) else 0%nat)).
      apply bool_decide_ext. by apply maps_to_thread_iff.
Qed.

Lemma enumerate_from_alleles (l : list cyvcf2_Variant) (i : nat) :
  sum_list ((λ iv, length (ALT iv.2)) <$> enumerate_from i l)
  = length (record_alt_pairs l).
Proof.
  rewrite record_alt_pairs_length. revert i.
  induction l as [|variant l IH]; intros i; simpl; [done|]. by rewrite IH.
Qed.

Lemma populate_keys_regions self vcf self' :
  populate_keys self vcf = Ok self' → _regions self' = _regions self.
Proof. unfold populate_keys. intros Hkeys. inv_bind. by subst self'. Qed.

(** The table of the pool has one row per allele of the records of the file. *)
Lemma run_pool_rows self vcf frame :
  run_pool self vcf = Ok frame →
  df_len frame = length (record_alt_pairs (generator self vcf)).
Proof.
  unfold run_pool. case_decide as Hw; [done|]. intros Hpool.
  apply bind_Ok in Hpool as (frames & Hmap & Hconcat).
  apply concat_rows in Hconcat. rewrite Hconcat.
  rewrite (mapM_rows _ (λ w, thread_alleles self w (enumerate (generator self vcf)))
             _ (parse_rows self vcf) _ Hmap).
  assert (generator self vcf = [] ∨ _chunksize self ≠ 0) as [Hnone|Hc].
  { destruct (seqZ 0 (_num_threads self)) as [|w ws] eqn:Hws.
    - apply (f_equal length) in Hws. rewrite length_seqZ in Hws. simpl in Hws. lia.
    - simpl in Hmap. apply bind_Ok in Hmap as (d & Hd & _).
      by eapply parse_chunksize. }
  - rewrite Hnone. by apply sum_list_fmap_zero.
  - rewrite thread_alleles_total by lia. apply enumerate_from_alleles.
Qed.

(** X1: the whole reader: once the file is parsed, the table has exactly
    one row per (record, alternate allele) pair of the records read, whatever
    the number of workers and the chunk size; [__len__] is the sum of the
    records' allele counts. *)
Theorem parsed_table_rows (self self' : VCFReader) (vcf : cyvcf2_VCF) :
  _parallel_parse_vcf self vcf = Ok self' →
  ∃ frame, _dataframe self' = Some frame ∧
           df_len frame = length (record_alt_pairs (generator self vcf)) ∧
           __len__ self' = Ok (Z.of_nat (sum_list ((length ∘ ALT) <$> generator self vcf))).
Proof.
  unfold _parallel_parse_vcf. intros Hparse.
  apply bind_Ok in Hparse as (self1 & Hkeys & Hparse).
  apply bind_Ok in Hparse as (frame & Hpool & [= <-]).
  apply run_pool_rows in Hpool.
  assert (generator self1 vcf = generator self vcf) as Hgen.
  { unfold generator. by rewrite (populate_keys_regions _ _ _ Hkeys). }
  rewrite Hgen in Hpool.
  exists frame. split; [done|]. split; [done|].
  unfold __len__. simpl. by rewrite Hpool, record_alt_pairs_length.
Qed.

(** ** The accessor of the table *)

(** C9: reading the table of a reader that holds none raises the runtime
    error "VCF data frame should be available."; reading the table of a reader
    that holds one returns it. *)
Theorem df_accessor (self : VCFReader) :
  (_dataframe self = None →
   df self = Raise (RuntimeError ["VCF data frame should be available."])) ∧
  (∀ frame, _dataframe self = Some frame → df self = Ok frame).
Proof. unfold df. split; [intros ->|intros frame ->]; reflexivity. Qed.

(** A reader that has parsed its file holds a table. *)
Lemma df_after_parse (self self' : VCFReader) (vcf : cyvcf2_VCF) :
  _parallel_parse_vcf self vcf = Ok self' → ∃ frame, df self' = Ok frame.
Proof.
  unfold _parallel_parse_vcf. intros Hparse. inv_bind. subst self'.
  eexists. reflexivity.
Qed.

(** ** Unknown value types *)

Lemma foldM_ext {A S} (f g : S → A → result S) (l : list A) (s : S) :
  (∀ s x, f s x = g s x) → foldM f s l = foldM g s l.
Proof.
  intros Hfg. revert s. induction l as [|x l IH]; intros s; simpl; [done|].
  rewrite Hfg. destruct (g s x); simpl; [apply IH | done].
Qed.

Lemma foldM_fmap {A B S} (h : A → B) (f : S → B → result S) (l : list A) (s : S) :
  foldM f s (h <$> l) = foldM (λ s x, f s (h x)) s l.
Proof.
  revert s. induction l as [|x l IH]; intros s; simpl; [done|].
  destruct (f s (h x)); simpl; [apply IH | done].
Qed.

Lemma py_getitem_alter_ne {A} (f : A → A) (h : gmap string A) (k k' : string) :
  k ≠ k' → py_getitem (alter f k h) k' = py_getitem h k'.
Proof. intros Hk. unfold py_getitem. by rewrite lookup_alter_ne. Qed.

Section Retype.
Variable f : string → string.

Lemma header_ids_retype vcf category :
  header_ids (retype f vcf) category = header_ids vcf category.
Proof.
  unfold header_ids. simpl. rewrite foldM_fmap. apply foldM_ext.
  intros keys h. by rewrite !py_getitem_alter_ne.
Qed.

Lemma expand_keys_retype vcf category keys :
  expand_keys (retype f vcf) category keys = expand_keys vcf category keys.
Proof. unfold expand_keys. by rewrite header_ids_retype. Qed.

Lemma key_counts_retype vcf keys counts :
  key_counts (retype f vcf) keys counts = key_counts vcf keys counts.
Proof.
  unfold key_counts. apply foldM_ext. intros c k. simpl.
  destruct (get_header_type vcf k) as [h|e]; simpl; [|done].
  by rewrite py_getitem_alter_ne.
Qed.

Lemma populate_keys_retype self vcf :
  populate_keys self (retype f vcf) = populate_keys self vcf.
Proof.
  unfold populate_keys. rewrite !expand_keys_retype.
  destruct (expand_keys vcf "INFO" _) as [info_keys|]; simpl; [|done].
  rewrite key_counts_retype.
  destruct (key_counts vcf info_keys _) as [info_counts|]; simpl; [|done].
  destruct (expand_keys vcf "FILTER" _) as [filter_keys|]; simpl; [|done].
  destruct (expand_keys vcf "FORMAT" _) as [format_keys|]; simpl; [|done].
  by rewrite key_counts_retype.
Qed.

End Retype.

Lemma mapM_const {A B} (g : A → result B) (l : list A) (b : B) :
  (∀ a, g a = Ok b) → mapM g l = Ok (replicate (length l) b).
Proof.
  intros Hg. induction l as [|a l IH]; simpl; [done|].
  by rewrite Hg, IH.
Qed.

(** A worker that finds no record returns the empty table. *)
Lemma parse_no_records self vcf thread_id :
  variants vcf = [] → (∀ r, variants_in vcf r = []) →
  _parse_vcf_cyvcf self vcf thread_id = Ok empty_frame.
Proof.
  intros Hall Hin. unfold _parse_vcf_cyvcf, generator.
  destruct (_regions self) as [r|]; [case_decide|]; by rewrite ?Hall, ?Hin.
Qed.

Lemma run_pool_no_records self vcf :
  variants vcf = [] → (∀ r, variants_in vcf r = []) →
  1 ≤ _num_threads self →
  is_Ok (run_pool self vcf) = true.
Proof.
  intros Hall Hin Hw. unfold run_pool. case_decide; [lia|].
  rewrite (mapM_const _ _ empty_frame) by (intros; by apply parse_no_records).
  simpl. rewrite length_seqZ.
  destruct (Z.to_nat (_num_threads self)) eqn:Hn; [lia|done].
Qed.

Lemma header_type_unknown (ty : string) :
  ty ∉ ["String"; "Integer"; "Float"; "Flag"] →
  _get_header_type_lambda ty = Raise (RuntimeError ["Unknown VCF header type:"; ty]).
Proof.
  intros Hty. unfold _get_header_type_lambda.
  repeat case_decide; try done; subst; exfalso; apply Hty; set_solver.
Qed.

(** C8, as the code has it: a value type other than String, Integer, Float
    and Flag makes [_get_header_type_lambda] raise a runtime error, and the
    four known types make it return a converter.  The function is called
    where a row is written, for an INFO key and for a FORMAT key other than
    GT, so that is where the error is raised.  The first part of
    [_parallel_parse_vcf], which fills the keys and their counts before the
    pool is created, does not read the declared types: it gives the same
    result whatever they are rewritten to ([retype]), the unknown type
    included; and over a file without records the pool raises nothing. *)
Theorem unknown_type_raises_in_decomposition (ty : string) :
  (ty ∈ ["String"; "Integer"; "Float"; "Flag"] →
   ∃ convert, _get_header_type_lambda ty = Ok convert) ∧
  (ty ∉ ["String"; "Integer"; "Float"; "Flag"] →
   _get_header_type_lambda ty = Raise (RuntimeError ["Unknown VCF header type:"; ty]) ∧
   (∀ vcf variant alt_idx df_dict info_col h number,
      get_header_type vcf info_col = Ok h →
      h !! "Number" = Some number → h !! "Type" = Some ty →
      info_column vcf variant alt_idx df_dict info_col
      = Raise (RuntimeError ["Unknown VCF header type:"; ty])) ∧
   (∀ self vcf variant alt_idx df_dict format_col sample h number,
      format_col ≠ "GT" →
      get_header_type vcf format_col = Ok h →
      h !! "Number" = Some number → h !! "Type" = Some ty →
      format_column self vcf variant alt_idx format_col df_dict sample
      = Raise (RuntimeError ["Unknown VCF header type:"; ty]))) ∧
  (∀ self vcf, populate_keys self (retype (λ _, ty) vcf) = populate_keys self vcf) ∧
  (∀ self vcf,
     variants vcf = [] → (∀ r, variants_in vcf r = []) →
     1 ≤ _num_threads self →
     is_Ok (run_pool self (retype (λ _, ty) vcf)) = true).
Proof.
  split; [|split; [|split]].
  - intros Hty. unfold _get_header_type_lambda.
    repeat (apply elem_of_cons in Hty as [->|Hty];
            [repeat case_decide; try done; by eexists|]).
    by apply elem_of_nil in Hty.
  - intros Hty. pose proof (header_type_unknown ty Hty) as Hraise.
    split; [done|]. split.
    + intros vcf variant alt_idx df_dict info_col h number Hh Hnum Hty'.
      unfold info_column, py_getitem. rewrite Hh. simpl.
      rewrite Hnum. simpl. rewrite Hty'. simpl. by rewrite Hraise.
    + intros self vcf variant alt_idx df_dict format_col [sample_idx sample_name]
             h number Hgt Hh Hnum Hty'.
      unfold format_column, py_getitem. case_decide; [done|].
      rewrite Hh. simpl. rewrite Hnum. simpl. rewrite Hty'. simpl. by rewrite Hraise.
  - intros self vcf. apply populate_keys_retype.
  - intros self vcf Hall Hin Hw. by apply run_pool_no_records.
Qed.

(** ** The conversion to the declared value type *)

(** C5, where the code departs from it: for an INFO key of Number A that the
    record carries, the cell written is the raw value at the allele's index;
    the converter of the declared type, although looked up, is not applied. *)
Theorem info_number_A_is_not_converted (vcf : cyvcf2_VCF)
    (variant : cyvcf2_Variant) (alt_idx : nat) (df_dict : gmap string (list pyval))
    (info_col : string) (h : gmap string string) (ty : string)
    (convert : pyval → result pyval) (vs : list pyval) (v : pyval) :
  get_header_type vcf info_col = Ok h →
  h !! "Number" = Some "A" → h !! "Type" = Some ty →
  _get_header_type_lambda ty = Ok convert →
  INFO variant !! info_col = Some (Tuple vs) →
  vs !! alt_idx = Some v →
  info_column vcf variant alt_idx df_dict info_col
  = Ok (append df_dict ("INFO_" +:+ info_col) v).
Proof.
  intros Hh Hnum Hty Hconv Hinfo Hv.
  unfold info_column, py_getitem, py_index. rewrite Hh. simpl.
  rewrite Hnum. simpl. rewrite Hty. simpl. rewrite Hconv. simpl.
  rewrite Hinfo. simpl. by rewrite Hv.
Qed.

(** The FORMAT key of Number A goes through the converter. *)
Lemma format_number_A_is_converted (self : VCFReader)
    (vcf : cyvcf2_VCF) (variant : cyvcf2_Variant) (alt_idx sample_idx : nat)
    (sample_name : string) (df_dict : gmap string (list pyval))
    (format_col : string) (h : gmap string string) (ty : string)
    (convert : pyval → result pyval) (rows : list (list pyval))
    (vs : list pyval) (v : pyval) :
  format_col ≠ "GT" →
  get_header_type vcf format_col = Ok h →
  h !! "Number" = Some "A" → h !! "Type" = Some ty →
  _get_header_type_lambda ty = Ok convert →
  format variant format_col = Some rows →
  rows !! sample_idx = Some vs →
  vs !! alt_idx = Some v →
  format_column self vcf variant alt_idx format_col df_dict (sample_idx, sample_name)
  = (c ← convert v; Ok (append df_dict (sample_name +:+ "_" +:+ format_col) c)).
Proof.
  intros Hgt Hh Hnum Hty Hconv Hfmt Hrow Hv.
  unfold format_column, py_getitem, py_index. case_decide; [done|].
  rewrite Hh. simpl. rewrite Hnum. simpl. rewrite Hty. simpl. rewrite Hconv. simpl.
  rewrite Hfmt, Hrow. simpl. by rewrite Hv.
Qed.

(** * Further properties *)

(** ** The rows of the final table, column by column *)




Section TableColumn.
Variable k : string.
Variable cell : cyvcf2_Variant → string → pyval.
Hypothesis row_cell :
  ∀ self vcf variant d alt_idx alt d',
    alt_row self vcf variant d (alt_idx, alt) = Ok d' →
    cells k d' = cells k d ++ [cell variant alt].











End TableColumn.


(** ** Every record is in the final table, once *)








Lemma populate_keys_settings self vcf self' :
  populate_keys self vcf = Ok self' →
  _chunksize self' = _chunksize self ∧ _num_threads self' = _num_threads self ∧
  _regions self' = _regions self ∧ _vcf self' = _vcf self ∧ _bams self' = _bams self ∧
  _is_fp self' = _is_fp self ∧ _dataframe self' = _dataframe self.
Proof. unfold populate_keys. intros Hkeys. inv_bind. by subst self'. Qed.







(** ** Reading a row back: [__getitem__] *)


Lemma iloc_range frame idx :
  is_Ok (iloc frame idx) = true
  ↔ - Z.of_nat (df_len frame) ≤ idx < Z.of_nat (df_len frame).
Proof.
  unfold iloc. cbv zeta. repeat case_decide; simpl; split; (done || lia).
Qed.


(** What [__getitem__] can raise after the row was fetched is never an
    [IndexError]. *)
Lemma bind_Raise_inv {A B} (m : result A) (f : A → result B) (e : exn) :
  m ≫= f = Raise e → m = Raise e ∨ ∃ a, m = Ok a ∧ f a = Raise e.
Proof. destruct m as [a|e']; intros H; [right; eauto | left; by injection H as ->]. Qed.

Lemma foldM_Raise {A S} (P : exn → Prop) (f : S → A → result S) (l : list A) :
  (∀ s x e, f s x = Raise e → P e) →
  ∀ s e, foldM f s l = Raise e → P e.
Proof.
  intros Hf. induction l as [|x l IH]; simpl; intros s e H; [done|].
  apply bind_Raise_inv in H as [H|(s1 & _ & H)]; eauto.
Qed.

Lemma py_getitem_Raise {A} (d : gmap string A) k e :
  py_getitem d k = Raise e → e ≠ IndexError.
Proof. unfold py_getitem. destruct (d !! k); [done|]. by intros [= <-]. Qed.

Lemma dict_get_Raise {A} (d : list (string * A)) k e :
  dict_get d k = Raise e → e ≠ IndexError.
Proof.
  induction d as [|[k' v] d IH]; simpl; [by intros [= <-]|].
  case_decide; [done|apply IH].
Qed.

Lemma py_range_Raise count e : py_range count = Raise e → e ≠ IndexError.
Proof. destruct count; simpl; [done|]. by intros [= <-]. Qed.

Lemma member_of_cell_Raise {E} (members : list E) value v e :
  member_of_cell members value v = Raise e → e ≠ IndexError.
Proof.
  unfold member_of_cell. cbv zeta.
  destruct (match v with VNone => _ | _ => _ end); [|done]. by intros [= <-].
Qed.

Lemma call_data_of_Raise self row format_keys call e :
  call_data_of self row format_keys call = Raise e → e ≠ IndexError.
Proof.
  unfold call_data_of. apply (foldM_Raise (λ e, e ≠ IndexError)). clear e. intros cd k e H.
  apply bind_Raise_inv in H as [H|(count & _ & H)]; [by eapply dict_get_Raise|].
  case_decide.
  - apply bind_Raise_inv in H as [H|(? & _ & H)]; [by eapply py_getitem_Raise|done].
  - apply bind_Raise_inv in H as [H|(r & _ & H)]; [by eapply py_range_Raise|].
    revert H. apply (foldM_Raise (λ e, e ≠ IndexError)). clear e. intros cd' i e H.
    apply bind_Raise_inv in H as [H|(? & _ & H)]; [by eapply py_getitem_Raise|done].
Qed.

Lemma info_of_Raise self row e : info_of self row = Raise e → e ≠ IndexError.
Proof.
  unfold info_of. apply (foldM_Raise (λ e, e ≠ IndexError)). clear e. intros info [k count] e H.
  case_decide.
  - apply bind_Raise_inv in H as [H|(? & _ & H)]; [by eapply py_getitem_Raise|done].
  - apply bind_Raise_inv in H as [H|(r & _ & H)]; [by eapply py_range_Raise|].
    apply bind_Raise_inv in H as [H|(? & _ & H)]; [|done].
    revert H. apply (foldM_Raise (λ e, e ≠ IndexError)). clear e. intros vals i e H.
    apply bind_Raise_inv in H as [H|(? & _ & H)]; [by eapply py_getitem_Raise|done].
Qed.

(** X6: on a reader that holds a table of [n] rows, [__getitem__] raises
    [IndexError] exactly for the indices outside [-n, n): an index in that
    range never ends in an [IndexError], whatever the columns hold. *)
Theorem getitem_index_error (self : VCFReader) (frame : DataFrame) (idx : Z) :
  _dataframe self = Some frame →
  __getitem__ self idx = Raise IndexError
  ↔ ¬ (- Z.of_nat (df_len frame) ≤ idx < Z.of_nat (df_len frame)).
Proof.
  intros Hframe. rewrite <- iloc_range.
  unfold __getitem__. rewrite Hframe. simpl.
  destruct (iloc frame idx) as [row|e] eqn:Hrow; simpl.
  - split; [|done]. intros H. exfalso.
    apply bind_Raise_inv in H as [H|(sz & _ & H)].
    { refine (foldM_Raise (λ e, e ≠ IndexError) _ _ _ _ _ H eq_refl).
      clear H. intros acc call e H.
      apply bind_Raise_inv in H as [H|(? & _ & H)]; [by eapply call_data_of_Raise|].
      apply bind_Raise_inv in H as [H|(? & _ & H)]; [by eapply py_getitem_Raise|].
      apply bind_Raise_inv in H as [H|(? & _ & H)]; [by eapply member_of_cell_Raise|done]. }
    apply bind_Raise_inv in H as [H|(var_filter & _ & H)].
    { refine (foldM_Raise (λ e, e ≠ IndexError) _ _ _ _ _ H eq_refl).
      clear H. intros acc k e H.
      apply bind_Raise_inv in H as [H|(cell & _ & H)]; [by eapply py_getitem_Raise|].
      by destruct (py_truth cell). }
    apply bind_Raise_inv in H as [H|(info & _ & H)]; [by eapply info_of_Raise|].
    do 7 (apply bind_Raise_inv in H as [H|(? & _ & H)]; [by eapply py_getitem_Raise|]).
    apply bind_Raise_inv in H as [H|(? & _ & H)]; [by eapply member_of_cell_Raise|done].
  - unfold iloc in Hrow. cbv zeta in Hrow. case_decide; [done|].
    injection Hrow as <-. split; [done|]. by intros _.
Qed.

(** ** The keys and their counts *)

Lemma dict_get_set {A} (d : list (string * A)) k v k' :
  dict_get (dict_set d k v) k' = if decide (k = k') then Ok v else dict_get d k'.
Proof.
  induction d as [|[k1 v1] d IH]; simpl.
  - by repeat case_decide.
  - destruct (decide (k1 = k)) as [->|Hne]; simpl.
    + by repeat case_decide.
    + rewrite IH. repeat case_decide; congruence.
Qed.

Lemma dict_set_keys {A} (d : list (string * A)) k v :
  (dict_set d k v).*1 = if bool_decide (k ∈ d.*1) then d.*1 else d.*1 ++ [k].
Proof.
  induction d as [|[k1 v1] d IH]; csimpl.
  - done.
  - destruct (decide (k1 = k)) as [->|Hne]; csimpl.
    + by rewrite bool_decide_eq_true_2 by left.
    + rewrite IH, (bool_decide_ext (k ∈ k1 :: d.*1) (k ∈ d.*1)).
      * by destruct (bool_decide _).
      * rewrite elem_of_cons. split; [intros [->|?]; done | by right].
Qed.

Lemma dict_set_elem_of {A} (d : list (string * A)) k v k0 :
  k0 ∈ (dict_set d k v).*1 ↔ k0 = k ∨ k0 ∈ d.*1.
Proof.
  rewrite dict_set_keys. case_bool_decide as Hk.
  - split; [by right | by intros [->|?]].
  - rewrite elem_of_app, list_elem_of_singleton. tauto.
Qed.

Lemma dict_set_NoDup {A} (d : list (string * A)) k v :
  NoDup d.*1 → NoDup (dict_set d k v).*1.
Proof.
  intros Hd. rewrite dict_set_keys. case_bool_decide as Hk; [done|].
  apply NoDup_app. split; [done|]. split; [|apply NoDup_singleton].
  intros x Hx ->%list_elem_of_singleton. done.
Qed.

Lemma key_counts_spec vcf keys : ∀ counts counts',
  key_counts vcf keys counts = Ok counts' →
  (NoDup counts.*1 → NoDup counts'.*1) ∧
  (∀ k, k ∈ counts'.*1 ↔ k ∈ counts.*1 ∨ k ∈ keys) ∧
  (∀ k, k ∈ keys →
     ∃ h n, get_header_type vcf k = Ok h ∧ h !! "Number" = Some n ∧
            dict_get counts' k
            = _get_normalized_count n 1 (Z.of_nat (length (samples vcf)))) ∧
  (∀ k, k ∉ keys → dict_get counts' k = dict_get counts k).
Proof.
  unfold key_counts. induction keys as [|k0 keys IH]; intros counts counts' Hrun.
  - injection Hrun as <-. repeat split; try done.
    + by left.
    + by intros [?|?%elem_of_nil].
    + by intros k ?%elem_of_nil.
  - simpl in Hrun. apply bind_Ok in Hrun as (counts1 & Hstep & Hrest).
    apply bind_Ok in Hstep as (h & Hh & Hstep).
    apply bind_Ok in Hstep as (n & Hn & Hstep).
    apply bind_Ok in Hstep as (c & Hc & [= <-]).
    destruct (IH _ _ Hrest) as (Hnodup & Hdom & Hin & Hout).
    split; [intros ?; by apply Hnodup, dict_set_NoDup|].
    split.
    { intros k. rewrite Hdom, dict_set_elem_of, elem_of_cons. tauto. }
    split.
    + intros k [->|Hk]%elem_of_cons.
      * destruct (decide (k0 ∈ keys)) as [Hk|Hk]; [by apply Hin|].
        exists h, n. split; [done|]. split.
        { unfold py_getitem in Hn. by destruct (h !! "Number"); [injection Hn as ->|]. }
        rewrite Hout, dict_get_set by done. by rewrite decide_True, Hc.
      * by apply Hin.
    + intros k [Hne Hk]%not_elem_of_cons.
      rewrite Hout, dict_get_set by done. by rewrite decide_False.
Qed.

(** X7: the schema of a reader that [__init__] returns.  The keys of each
    category are the requested ones, or, when the wildcard is among them, the
    IDs of the header lines of the category, in the order of the header; the
    sample names are those of the file; each dictionary of counts has
    exactly the keys of its category, each once, and the count of a key is
    the one its header line gives for a single alternate allele. *)
Theorem init_schema (vcf_path : string) (bams : list string)
    (is_fp require_genotype : bool) (tag : string)
    (info_keys filter_keys format_keys : list string) (regions : option string)
    (num_threads chunksize : Z) (vcf : cyvcf2_VCF) (self : VCFReader) :
  __init__ vcf_path bams is_fp require_genotype tag info_keys filter_keys format_keys
           regions num_threads chunksize vcf = Ok self →
  expand_keys vcf "INFO" info_keys = Ok (_info_vcf_keys self) ∧
  expand_keys vcf "FILTER" filter_keys = Ok (_filter_vcf_keys self) ∧
  expand_keys vcf "FORMAT" format_keys = Ok (_format_vcf_keys self) ∧
  _sample_names self = list_to_set (samples vcf) ∧
  counts_of_keys vcf (_info_vcf_keys self) (_info_vcf_key_counts self) ∧
  counts_of_keys vcf (_format_vcf_keys self) (_format_vcf_key_counts self).
Proof.
  unfold __init__, _parallel_parse_vcf, populate_keys. cbn [_info_vcf_keys
    _filter_vcf_keys _format_vcf_keys _info_vcf_key_counts _format_vcf_key_counts
    _sample_names]. intros Hinit.
  apply bind_Ok in Hinit as (self1 & Hkeys & Hinit).
  apply bind_Ok in Hinit as (frame & _ & [= <-]).
  apply bind_Ok in Hkeys as (ik & Hik & Hkeys).
  apply bind_Ok in Hkeys as (ic & Hic & Hkeys).
  apply bind_Ok in Hkeys as (fk & Hfk & Hkeys).
  apply bind_Ok in Hkeys as (mk & Hmk & Hkeys).
  apply bind_Ok in Hkeys as (mc & Hmc & [= <-]).
  simpl. repeat split; try done.
  - apply (left_id_L ∅ (∪)).
  - by apply (key_counts_spec _ _ _ _ Hic), NoDup_nil.
  - intros Hk. apply (key_counts_spec _ _ _ _ Hic) in Hk as [?%elem_of_nil|?]; done.
  - intros Hk. apply (key_counts_spec _ _ _ _ Hic). by right.
  - by apply (key_counts_spec _ _ _ _ Hic).
  - by apply (key_counts_spec _ _ _ _ Hmc), NoDup_nil.
  - intros Hk. apply (key_counts_spec _ _ _ _ Hmc) in Hk as [?%elem_of_nil|?]; done.
  - intros Hk. apply (key_counts_spec _ _ _ _ Hmc). by right.
  - by apply (key_counts_spec _ _ _ _ Hmc).
Qed.

(** ** A chunk size of zero *)

Lemma parse_zero_chunksize self vcf w :
  _chunksize self = 0 → generator self vcf ≠ [] →
  _parse_vcf_cyvcf self vcf w = Raise ZeroDivisionError.
Proof.
  intros Hc Hgen. unfold _parse_vcf_cyvcf.
  destruct (generator self vcf) as [|x l]; [done|].
  unfold enumerate. simpl. unfold maps_to_thread, py_floordiv. by rewrite Hc.
Qed.

Lemma parse_no_generator self vcf w :
  generator self vcf = [] → _parse_vcf_cyvcf self vcf w = Ok empty_frame.
Proof. intros Hgen. unfold _parse_vcf_cyvcf. by rewrite Hgen. Qed.

Lemma sum_list_replicate_zero (n : nat) :
  sum_list (df_len <$> replicate n empty_frame) = 0%nat.
Proof. induction n as [|n IH]; [done|]. csimpl. by rewrite IH. Qed.

(** X8: with the keys resolved and at least one worker, a chunk size of 0
    makes the parse raise [ZeroDivisionError] as soon as the source yields a
    record (the first test of the first record divides by it); over a source
    without records nothing is divided, and the reader gets a table without
    rows. *)
Theorem zero_chunksize (self self1 : VCFReader) (vcf : cyvcf2_VCF) :
  populate_keys self vcf = Ok self1 →
  1 ≤ _num_threads self → _chunksize self = 0 →
  match generator self vcf with
  | [] => ∃ self', _parallel_parse_vcf self vcf = Ok self' ∧ __len__ self' = Ok 0
  | _ :: _ => _parallel_parse_vcf self vcf = Raise ZeroDivisionError
  end.
Proof.
  intros Hkeys Hw Hc. unfold _parallel_parse_vcf. rewrite Hkeys. simpl.
  destruct (populate_keys_settings _ _ _ Hkeys) as (Hc1 & Hw1 & Hr1 & _).
  assert (generator self1 vcf = generator self vcf) as Hgen
    by (unfold generator; by rewrite Hr1).
  unfold run_pool. rewrite decide_False by lia.
  destruct (generator self vcf) as [|x l] eqn:Hrecords.
  - rewrite (mapM_const _ _ empty_frame)
      by (intros; by apply parse_no_generator).
    rewrite length_seqZ.
    destruct (Z.to_nat (_num_threads self1)) as [|n] eqn:Hn; [lia|].
    eexists. split; [reflexivity|]. simpl.
    by rewrite sum_list_replicate_zero.
  - rewrite seqZ_cons by lia. simpl.
    rewrite parse_zero_chunksize; [done | congruence | by rewrite Hgen].
Qed.

(** ** The value type of the cells *)

Lemma grows_by_refl P d : grows_by P d d.
Proof. intros col. exists []. by rewrite app_nil_r. Qed.

Lemma grows_by_trans P d1 d2 d3 :
  grows_by P d1 d2 → grows_by P d2 d3 → grows_by P d1 d3.
Proof.
  intros H12 H23 col. destruct (H12 col) as (n1 & E1 & F1).
  destruct (H23 col) as (n2 & E2 & F2). exists (n1 ++ n2).
  split; [by rewrite E2, E1, app_assoc | by apply Forall_app].
Qed.

Lemma grows_by_append (P : pyval → Prop) d k v : P v → grows_by P d (append d k v).
Proof.
  intros Hv col. destruct (decide (k = col)) as [->|Hne].
  - exists [v]. split; [apply append_cells_eq | by apply Forall_singleton].
  - exists []. split; [by rewrite append_cells_ne, app_nil_r | done].
Qed.

Lemma foldM_grows_by {A} P (f : gmap string (list pyval) → A → result _) l :
  (∀ d x d', f d x = Ok d' → grows_by P d d') →
  ∀ d d', foldM f d l = Ok d' → grows_by P d d'.
Proof.
  intros Hf d d'. apply (foldM_inv (grows_by P d)); [|apply grows_by_refl].
  intros s x s' Hs Hstep. eapply grows_by_trans; eauto.
Qed.

(** What a converter returns is of the type it was made for. *)
Lemma converter_typed ty convert x c :
  _get_header_type_lambda ty = Ok convert → convert x = Ok c →
  has_header_type ty c = true.
Proof.
  unfold _get_header_type_lambda.
  repeat case_decide; subst; intros [= <-]; destruct (is_None x); intros Hc;
    inv_bind; by subst.
Qed.

Lemma indexed_columns_typed ty convert (val : list pyval) (df_key : string)
    (l : list nat) d d' :
  _get_header_type_lambda ty = Ok convert →
  foldM (λ d i,
           v ← py_index val i;
           c ← convert v;
           Ok (append d (df_key +:+ "_" +:+ pretty i) c)) d l = Ok d' →
  grows_by (λ c, has_header_type ty c = true) d d'.
Proof.
  intros Hty. apply foldM_grows_by. intros s i s' Hstep. inv_bind. subst s'.
  apply grows_by_append. by eapply converter_typed.
Qed.

(** X9: the cells that the INFO loop writes for a key are of the value type
    its header line declares, for every Number code but A (whose values are
    written as they come): nulls apart, strings for String, integers for
    Integer, floats for Float and booleans for Flag; for the code "." the one
    cell written is a string whatever the declared type. *)
Theorem info_cells_typed (vcf : cyvcf2_VCF) (variant : cyvcf2_Variant)
    (alt_idx : nat) (d d' : gmap string (list pyval)) (info_col : string)
    (h : gmap string string) (header_number ty : string) :
  get_header_type vcf info_col = Ok h →
  h !! "Number" = Some header_number → h !! "Type" = Some ty →
  header_number ≠ "A" →
  info_column vcf variant alt_idx d info_col = Ok d' →
  grows_by (λ c, has_header_type
                   (if decide (header_number = ".") then "String" else ty) c = true)
           d d'.
Proof.
  intros Hh Hnum Hty HA. unfold info_column, py_getitem.
  rewrite Hh. simpl. rewrite Hnum. simpl. rewrite Hty. simpl.
  intros Hrow. apply bind_Ok in Hrow as (convert & Hconv & Hrow).
  apply bind_Ok in Hrow as (val & _ & Hrow).
  rewrite decide_False in Hrow by done.
  destruct (decide (header_number = "R")) as [->|HR].
  { inv_bind. subst d'. rewrite decide_False by done.
    eapply grows_by_trans; apply grows_by_append; by eapply converter_typed. }
  destruct (isdigit header_number) eqn:Hdigit.
  { rewrite decide_False by (intros ->; discriminate Hdigit).
    apply bind_Ok in Hrow as (n & _ & Hrow). case_decide.
    - inv_bind. subst d'. apply grows_by_append. by eapply converter_typed.
    - by eapply indexed_columns_typed. }
  case_decide as Hdot.
  - injection Hrow as <-. by apply grows_by_append.
  - injection Hrow as <-. apply grows_by_refl.
Qed.

(** X10: the cells that the FORMAT loop writes for a key other than GT are
    of the value type its header line declares, for every Number code, A
    included; for the code "." the one cell written is a string. *)
Theorem format_cells_typed (self : VCFReader) (vcf : cyvcf2_VCF)
    (variant : cyvcf2_Variant) (alt_idx : nat) (d d' : gmap string (list pyval))
    (format_col : string) (sample : nat * string)
    (h : gmap string string) (header_number ty : string) :
  format_col ≠ "GT" →
  get_header_type vcf format_col = Ok h →
  h !! "Number" = Some header_number → h !! "Type" = Some ty →
  format_column self vcf variant alt_idx format_col d sample = Ok d' →
  grows_by (λ c, has_header_type
                   (if decide (header_number = ".") then "String" else ty) c = true)
           d d'.
Proof.
  intros HGT Hh Hnum Hty. unfold format_column, py_getitem.
  destruct sample as [sample_idx sample_name].
  rewrite decide_False by done.
  rewrite Hh. simpl. rewrite Hnum. simpl. rewrite Hty. simpl.
  intros Hrow. apply bind_Ok in Hrow as (convert & Hconv & Hrow).
  apply bind_Ok in Hrow as (val & _ & Hrow).
  destruct (decide (header_number = "A")) as [->|HA].
  { inv_bind. subst d'. rewrite decide_False by done.
    apply grows_by_append. by eapply converter_typed. }
  destruct (decide (header_number = "R")) as [->|HR].
  { inv_bind. subst d'. rewrite decide_False by done.
    eapply grows_by_trans; apply grows_by_append; by eapply converter_typed. }
  destruct (isdigit header_number) eqn:Hdigit.
  { rewrite decide_False by (intros ->; discriminate Hdigit).
    apply bind_Ok in Hrow as (n & _ & Hrow). case_decide.
    - inv_bind. subst d'. apply grows_by_append. by eapply converter_typed.
    - by eapply indexed_columns_typed. }
  case_decide as Hdot.
  - injection Hrow as <-. by apply grows_by_append.
  - injection Hrow as <-. apply grows_by_refl.
Qed.

(** ** A record without the requested field *)

Lemma converter_of_None ty convert :
  _get_header_type_lambda ty = Ok convert →
  convert VNone = Ok (if decide (ty = "Flag") then VBool false else VNone).
Proof.
  unfold _get_header_type_lambda.
  repeat case_decide; subst; intros [= <-]; try done.
Qed.

(** X11: the row of a record that does not carry a requested INFO key, for
    an allele of the record and a recognized value type.  With the code A the
    cell is the null; with R both cells, and with the count 1 the cell, are
    what the converter makes of the null (the null, or False for a flag);
    with the code "." the cell is the text None, not a null. *)
Theorem absent_info_field (vcf : cyvcf2_VCF) (variant : cyvcf2_Variant)
    (alt_idx : nat) (d : gmap string (list pyval)) (info_col : string)
    (h : gmap string string) (header_number ty : string)
    (convert : pyval → result pyval) :
  INFO variant !! info_col = None →
  get_header_type vcf info_col = Ok h →
  h !! "Number" = Some header_number → h !! "Type" = Some ty →
  _get_header_type_lambda ty = Ok convert →
  (alt_idx < length (ALT variant))%nat →
  let null := if decide (ty = "Flag") then VBool false else VNone in
  let df_key := "INFO_" +:+ info_col in
  (header_number = "A" →
   info_column vcf variant alt_idx d info_col = Ok (append d df_key VNone)) ∧
  (header_number = "R" →
   info_column vcf variant alt_idx d info_col
   = Ok (append (append d (df_key +:+ "_REF") null) (df_key +:+ "_ALT") null)) ∧
  (header_number = "1" →
   info_column vcf variant alt_idx d info_col = Ok (append d df_key null)) ∧
  (header_number = "." →
   info_column vcf variant alt_idx d info_col = Ok (append d df_key (VStr "None"))).
Proof.
  intros Hinfo Hh Hnum Hty Hconv Halt. cbv zeta.
  pose proof (converter_of_None _ _ Hconv) as Hnull.
  set (null := if decide (ty = "Flag") then VBool false else VNone) in *.
  repeat split; intros ->.
  all: unfold info_column, py_getitem.
  all: rewrite Hh; simpl; rewrite Hnum; simpl; rewrite Hty; simpl.
  all: rewrite Hconv, Hinfo; simpl.
  - unfold null_values, py_index. simpl.
    rewrite Nat2Z.id, lookup_replicate_2 by done. done.
  - unfold null_values, py_index. simpl.
    replace (Z.to_nat (Z.of_nat (length (ALT variant)) + 1))
      with (S (length (ALT variant))) by lia.
    simpl. rewrite Hnull. simpl.
    replace (alt_idx + 1)%nat with (S alt_idx) by lia. simpl.
    rewrite lookup_replicate_2 by done. simpl. by rewrite Hnull.
  - assert (null_values vcf variant "1" = Ok [VNone]) as ->.
    { unfold null_values, _get_normalized_count. repeat case_decide; try done.
      simpl. by rewrite (int_of_str_isdigit "1") by done. }
    rewrite (int_of_str_isdigit "1") by done. simpl. by rewrite Hnull.
  - unfold null_values. simpl. done.
Qed.

(** X12: an INFO key whose header line gives the count 0 (as the lines of
    flags do) gets no column: the loop over its values has no round, and the
    row is left as it was, whether or not the record carries the key. *)
Theorem number_zero_writes_nothing (vcf : cyvcf2_VCF) (variant : cyvcf2_Variant)
    (alt_idx : nat) (d : gmap string (list pyval)) (info_col : string)
    (h : gmap string string) (ty : string) :
  get_header_type vcf info_col = Ok h →
  h !! "Number" = Some "0" → h !! "Type" = Some ty →
  ty ∈ ["String"; "Integer"; "Float"; "Flag"] →
  info_column vcf variant alt_idx d info_col = Ok d.
Proof.
  intros Hh Hnum Hty Hknown. unfold info_column, py_getitem.
  rewrite Hh. simpl. rewrite Hnum. simpl. rewrite Hty. simpl.
  assert (∃ convert, _get_header_type_lambda ty = Ok convert) as [convert ->].
  { unfold _get_header_type_lambda. repeat case_decide; eauto.
    exfalso. repeat (apply elem_of_cons in Hknown as [->|Hknown]; [done|]).
    by apply elem_of_nil in Hknown. }
  simpl.
  assert (null_values vcf variant "0" = Ok []) as Hnull.
  { unfold null_values, _get_normalized_count. repeat case_decide; try done.
    simpl. by rewrite (int_of_str_isdigit "0") by done. }
  rewrite (int_of_str_isdigit "0") by done.
  destruct (INFO variant !! info_col) as [[v|vs]|]; simpl; rewrite ?Hnull; done.
Qed.

(** ** The genotype cells *)

(** X13: the two cells that the FORMAT loop writes for the key GT and a
    sample whose genotype is the pair [(g0, g1)], in the row of the allele of
    id [a = alt_idx + 1].  When each side is the reference or [a], the text
    has 1 for [a] and 0 for the reference; otherwise it is "-1/-1", never a
    mix of -1 and an allele.  The zygosity is NO_VARIANT for a dataset
    flagged as false positives, and else goes with the text: NO_VARIANT for
    0/0, HOMOZYGOUS for 1/1, HETEROZYGOUS for 0/1 and 1/0, NONE for -1/-1. *)
Theorem genotype_cells (self : VCFReader) (vcf : cyvcf2_VCF)
    (variant : cyvcf2_Variant) (alt_idx sample_idx : nat) (sample_name : string)
    (d : gmap string (list pyval)) (g0 g1 : Z) (rest : list Z) :
  genotypes variant !! sample_idx = Some (g0 :: g1 :: rest) →
  let a := Z.of_nat alt_idx + 1 in
  let known := bool_decide ((g0 = 0 ∨ g0 = a) ∧ (g1 = 0 ∨ g1 = a)) in
  let text := if known
              then pretty (Z.b2z (bool_decide (g0 = a))) +:+ "/"
                   +:+ pretty (Z.b2z (bool_decide (g1 = a)))
              else "-1/-1" in
  let zyg := if _is_fp self then NO_VARIANT
             else if known
                  then if bool_decide (g0 = g1)
                       then if bool_decide (g0 = 0) then NO_VARIANT else HOMOZYGOUS
                       else HETEROZYGOUS
                  else NONE in
  format_column self vcf variant alt_idx "GT" d (sample_idx, sample_name)
  = Ok (append (append d (sample_name +:+ "_zyg") (VInt (zygosity_value zyg)))
               (sample_name +:+ "_GT") (VStr text)).
Proof.
  intros Hgt. cbv zeta.
  unfold format_column. cbv beta iota. rewrite decide_True by done.
  unfold py_index. rewrite Hgt. simpl.
  unfold fixup_genotype, _detect_zygosity, fix_gt, py_setitem.
  destruct (_is_fp self); simpl.
  all: repeat (case_decide; simpl; try lia);
    repeat (case_bool_decide; simpl; try lia); try reflexivity.
  all: exfalso; lia.
Qed.

(** ** The FILTER cells *)

Lemma filter_key_inj (a b : string) : "FILTER_" +:+ a = "FILTER_" +:+ b → a = b.
Proof. intros [= Heq]. exact Heq. Qed.

Lemma filter_loop_other (keys : list string) (filter_set : list string) d col :
  (∀ k, k ∈ keys → "FILTER_" +:+ k ≠ col) →
  cells col (foldl (λ d filter_col,
                      append d ("FILTER_" +:+ filter_col)
                        (VBool (bool_decide (filter_col ∈ filter_set)))) d keys)
  = cells col d.
Proof.
  revert d. induction keys as [|c cs IH]; intros d Hne; simpl; [done|].
  rewrite IH by (intros k Hk; apply Hne; by right).
  apply append_cells_ne, Hne. by left.
Qed.

Lemma filter_loop_cells (keys : list string) (filter_set : list string) d k :
  NoDup keys → k ∈ keys →
  cells ("FILTER_" +:+ k)
    (foldl (λ d filter_col,
              append d ("FILTER_" +:+ filter_col)
                (VBool (bool_decide (filter_col ∈ filter_set)))) d keys)
  = cells ("FILTER_" +:+ k) d ++ [VBool (bool_decide (k ∈ filter_set))].
Proof.
  revert d. induction keys as [|c cs IH]; intros d Hnodup Hk.
  - by apply elem_of_nil in Hk.
  - apply NoDup_cons in Hnodup as [Hc Hcs]. simpl.
    apply elem_of_cons in Hk as [->|Hk].
    + rewrite filter_loop_other; [apply append_cells_eq|].
      intros k' Hk' Heq%filter_key_inj. by subst k'.
    + rewrite IH by done. rewrite append_cells_ne; [done|].
      intros Heq%filter_key_inj. by subst c.
Qed.

(** X14: the FILTER columns of a row, for keys without duplicates: the cell
    of the key [k] says whether [k] is among the filters of the record,
    separated by ";"; a record without filters counts as one with the filter
    PASS, so that its cell is True for the key PASS and False for any
    other. *)
Theorem filter_cells (self : VCFReader) (variant : cyvcf2_Variant)
    (d : gmap string (list pyval)) (k : string) :
  NoDup (_filter_vcf_keys self) → k ∈ _filter_vcf_keys self →
  cells ("FILTER_" +:+ k) (filter_columns self variant d)
  = cells ("FILTER_" +:+ k) d
    ++ [VBool (match FILTER variant with
               | Some f => bool_decide (k ∈ split f ";")
               | None => bool_decide (k = "PASS")
               end)].
Proof.
  intros Hnodup Hk.
  unfold filter_columns. cbv zeta. rewrite filter_loop_cells by done.
  destruct (FILTER variant) as [f|]; simpl; [done|].
  f_equal. f_equal. f_equal. apply bool_decide_ext.
  change (split "PASS" ";") with ["PASS"]. apply list_elem_of_singleton.
Qed.

End Reader.

(** * Worked examples *)

(** ** An instance for the worked examples

    The examples below use no float.  In this instance the only float is NaN
    (no integer equals it, [int] of it raises, no text or integer converts to
    a float); [int] reads an optional minus sign before decimal digits; the
    enumerations count from zero. *)

Definition example_int_of_str (s : string) : result Z :=
  if isdigit s then Ok (decimal_value s)
  else match s with
       | String "-" s' => if isdigit s' then Ok (- decimal_value s') else Raise ValueError
       | _ => Raise ValueError
       end.

Definition example_zygosity_value (z : VariantZygosity) : Z :=
  match z with NO_VARIANT => 0 | HETEROZYGOUS => 1 | HOMOZYGOUS => 2 | NONE => 3 end.

Definition example_type_value (t : VariantType) : Z :=
  match t with SNP => 0 | INSERTION => 1 | DELETION => 2 end.

#[export] Program Instance example_externals : PyExternals unit := {|
  float_nan := tt;
  int_of_str := example_int_of_str;
  int_of_float := λ _, Raise ValueError;
  float_of_str := λ _, Raise ValueError;
  float_of_int := λ _, Raise OverflowError;
  float_eq_int := λ _ _, false;
  str_of_float := λ _, "nan";
  zygosity_value := example_zygosity_value;
  type_value := example_type_value;
|}.
Next Obligation. intros s Hs. unfold example_int_of_str. by rewrite Hs. Qed.
Next Obligation. by intros [] [] ?. Qed.
Next Obligation. by intros [] [] ?. Qed.

(** A reader as [__init__] leaves it before parsing. *)
Definition new_reader (is_fp : bool) (info_keys filter_keys format_keys : list string)
    (num_threads chunksize : Z) : @VCFReader unit :=
  {| _vcf := "calls.vcf"; _bams := []; _is_fp := is_fp;
     _require_genotype := true; _tag := "caller";
     _regions := None; _num_threads := num_threads;
     _chunksize := chunksize; _dataframe := None;
     _sample_names := ∅;
     _info_vcf_keys := info_keys; _info_vcf_key_counts := [];
     _filter_vcf_keys := filter_keys;
     _format_vcf_keys := format_keys; _format_vcf_key_counts := [] |}.

(** ** Worked example: two records, three alleles *)

Definition header_line (header_type id number type : string) : gmap string string :=
  list_to_map [("HeaderType", header_type); ("ID", id);
               ("Number", number); ("Type", type)].

(** The lookup of a key among the INFO and FORMAT lines of a header. *)
Definition lookup_header (lines : list (gmap string string)) (k : string)
  : result (gmap string string) :=
  match filter (λ h, h !! "ID" = Some k ∧ h !! "HeaderType" ≠ Some "FILTER") lines with
  | h :: _ => Ok h
  | [] => Raise (KeyError k)
  end.

Definition example_vcf (sample_names : list string)
    (lines : list (gmap string string))
    (records : list (@cyvcf2_Variant unit)) : @cyvcf2_VCF unit :=
  {| samples := sample_names; header_iter := lines;
     get_header_type := lookup_header lines;
     variants := records; variants_in := λ _, records |}.

Definition example_header : list (gmap string string) :=
  [header_line "INFO" "DP4" "A" "Integer";
   list_to_map [("HeaderType", "FILTER"); ("ID", "q10")];
   header_line "FORMAT" "GT" "1" "String";
   header_line "FORMAT" "AD" "R" "Integer"].

(** chr1:100 A>T,TG with DP4=5,6; the sample is 0/1 with AD=10,4,2. *)
Definition record_a : @cyvcf2_Variant unit :=
  {| CHROM := "1"; start := 99; end_ := 100; ID := None; REF := "A";
     ALT := ["T"; "TG"]; QUAL := None; FILTER := None;
     INFO := {[ "DP4" := Tuple [VInt 5; VInt 6] ]};
     genotypes := [[0; 1; 0]];
     format := λ k, if decide (k = "AD") then Some [[VInt 10; VInt 4; VInt 2]] else None |}.

(** chr1:200 AC>A, filtered q10, without DP4; the sample is 1/1 with AD=0,7. *)
Definition record_b : @cyvcf2_Variant unit :=
  {| CHROM := "1"; start := 199; end_ := 201; ID := Some "rs1"; REF := "AC";
     ALT := ["A"]; QUAL := None; FILTER := Some "q10";
     INFO := ∅;
     genotypes := [[1; 1; 1]];
     format := λ k, if decide (k = "AD") then Some [[VInt 0; VInt 7]] else None |}.

Definition example_file : @cyvcf2_VCF unit :=
  example_vcf ["sample"] example_header [record_a; record_b].

Definition example_reader : @VCFReader unit :=
  new_reader false ["DP4"] ["q10"] ["GT"; "AD"] 2 5000.

Definition example_frame : @DataFrame unit :=
  match _create_df example_reader example_file [record_a; record_b] with
  | Ok frame => frame
  | Raise _ => empty_frame
  end.

(** A header that declares the INFO key SRC with the value type Character,
    and a record that carries the key. *)
Definition bad_header : list (gmap string string) :=
  [header_line "INFO" "SRC" "1" "Character"].

Definition bad_record : @cyvcf2_Variant unit :=
  {| CHROM := "1"; start := 99; end_ := 100; ID := None; REF := "A";
     ALT := ["T"]; QUAL := None; FILTER := None;
     INFO := {[ "SRC" := Scalar (VStr "x") ]};
     genotypes := []; format := λ _, None |}.

(** An INFO key and a FORMAT key of Number A and type String, whose raw
    values are integers. *)
Definition typed_header : list (gmap string string) :=
  [header_line "INFO" "SB" "A" "String";
   header_line "FORMAT" "SB" "A" "String"].

Definition typed_record : @cyvcf2_Variant unit :=
  {| CHROM := "1"; start := 99; end_ := 100; ID := None; REF := "A";
     ALT := ["T"; "G"]; QUAL := None; FILTER := None;
     INFO := {[ "SB" := Tuple [VInt 5; VInt 6] ]};
     genotypes := [[0; 1; 0]];
     format := λ k, if decide (k = "SB") then Some [[VInt 5; VInt 6]] else None |}.

Definition typed_file : @cyvcf2_VCF unit :=
  example_vcf ["sample"] typed_header [typed_record].

(** An INFO key of Number R, one value per allele, the reference included. *)
Definition per_allele_header : list (gmap string string) :=
  [header_line "INFO" "AD" "R" "Integer";
   header_line "FORMAT" "GT" "1" "String"].

Definition per_allele_record : @cyvcf2_Variant unit :=
  {| CHROM := "1"; start := 99; end_ := 100; ID := None; REF := "A";
     ALT := ["T"]; QUAL := None; FILTER := None;
     INFO := {[ "AD" := Tuple [VInt 3; VInt 4] ]};
     genotypes := [[0; 1; 0]];
     format := λ _, None |}.

Definition per_allele_file : @cyvcf2_VCF unit :=
  example_vcf ["sample"] per_allele_header [per_allele_record].

(** An INFO flag, declared with the count 0, and a record that carries
    it. *)
Definition flag_header : list (gmap string string) :=
  [header_line "INFO" "DB" "0" "Flag"].

Definition flag_record : @cyvcf2_Variant unit :=
  {| CHROM := "1"; start := 99; end_ := 100; ID := None; REF := "A";
     ALT := ["T"]; QUAL := None; FILTER := None;
     INFO := {[ "DB" := Scalar (VBool true) ]};
     genotypes := []; format := λ _, None |}.

(** ** The claims at concrete inputs *)

Lemma zygosity_truth_table_witness :
  zygosity_for_allele example_reader [0; 0; 0] 0 = Ok NO_VARIANT ∧
  zygosity_for_allele example_reader [0; 1; 0] 0 = Ok HETEROZYGOUS ∧
  zygosity_for_allele example_reader [1; 1; 0] 0 = Ok HOMOZYGOUS ∧
  zygosity_for_allele example_reader [-1; 0; 0] 0 = Ok NONE ∧
  zygosity_for_allele example_reader [2; 1; 0] 0 = Ok NONE ∧
  fixup_genotype [2; 1; 0] 0 = Ok [-1; -1; 0].
Proof. apply (zygosity_truth_table example_reader [0]). reflexivity. Defined.

Lemma normalized_count_table_witness :
  _get_normalized_count "12" 3 2 = Ok (Some 12).
Proof. by apply (normalized_count_table 3 2). Defined.

Example example_frame_rows :
  is_Ok (_create_df example_reader example_file [record_a; record_b]) = true ∧
  df_len example_frame = 3%nat ∧
  df_columns example_frame !! "alt" = Some [VStr "T"; VStr "TG"; VStr "A"] ∧
  df_columns example_frame !! "INFO_DP4" = Some [VInt 5; VInt 6; VNone] ∧
  df_columns example_frame !! "sample_GT" = Some [VStr "0/1"; VStr "-1/-1"; VStr "1/1"] ∧
  df_columns example_frame !! "sample_AD_ALT" = Some [VInt 4; VInt 2; VInt 7] ∧
  df_columns example_frame !! "FILTER_q10" = Some [VBool false; VBool false; VBool true].
Proof. repeat split; vm_compute; reflexivity. Qed.

Lemma create_df_one_row_per_allele_witness :
  df_len example_frame = length (record_alt_pairs [record_a; record_b]) ∧
  cells "alt" (df_columns example_frame)
  = (λ p, VStr p.2) <$> record_alt_pairs [record_a; record_b].
Proof.
  destruct (create_df_one_row_per_allele example_reader example_file
              [record_a; record_b] example_frame) as (H1 & _ & _ & _ & _ & H6).
  - unfold example_frame.
    destruct (_create_df example_reader example_file [record_a; record_b])
      as [frame|e] eqn:Hrun; [reflexivity|].
    assert (is_Ok (_create_df example_reader example_file [record_a; record_b]) = true)
      as Hok by (vm_compute; reflexivity).
    rewrite Hrun in Hok. discriminate Hok.
  - split; [exact H1 | exact H6].
Defined.

Lemma chunk_coverage_witness :
  assigned_indices (new_reader false [] [] ["GT"] 3 2) 7 0 = [0; 1; 6]%nat ∧
  assigned_indices (new_reader false [] [] ["GT"] 3 2) 7 1 = [2; 3]%nat ∧
  assigned_indices (new_reader false [] [] ["GT"] 3 2) 7 2 = [4; 5]%nat ∧
  (∃ w, 0 ≤ w < 3 ∧ 6%nat ∈ assigned_indices (new_reader false [] [] ["GT"] 3 2) 7 w).
Proof.
  repeat split; try reflexivity.
  apply (chunk_coverage (new_reader false [] [] ["GT"] 3 2) 7);
    [vm_compute; discriminate.. | lia].
Defined.

Lemma info_number_A_is_not_converted_witness :
  info_column typed_file typed_record 0 ∅ "SB" = Ok (append ∅ "INFO_SB" (VInt 5)).
Proof.
  apply (info_number_A_is_not_converted typed_file typed_record 0 ∅ "SB"
           (header_line "INFO" "SB" "A" "String") "String"
           (λ x, if is_None x then Ok VNone else Ok (VStr (py_str x)))
           [VInt 5; VInt 6] (VInt 5));
    reflexivity.
Defined.

Example typed_file_cells :
  info_column typed_file typed_record 0 ∅ "SB" = Ok {[ "INFO_SB" := [VInt 5] ]} ∧
  format_column example_reader typed_file typed_record 0 "SB" ∅ (0%nat, "sample")
  = Ok {[ "sample_SB" := [VStr "5"] ]}.
Proof. split; reflexivity. Qed.

(** C6, where the code departs from it: the reader is built over a file
    whose INFO key AD has Number R; the table holds the columns [INFO_AD_REF]
    and [INFO_AD_ALT] and no column [INFO_AD_0], the count kept for AD is 2,
    and the view of row 0 asks for the column [INFO_AD_0]: a key error. *)
Theorem getitem_number_R_key_error :
  let built := __init__ "calls.vcf" [] false true "caller" ["AD"] [] ["*"] None 2 5000
                        per_allele_file in
  is_Ok built = true ∧
  (reader ← built; Ok (_info_vcf_key_counts reader)) = Ok [("AD", Some 2)] ∧
  (reader ← built; frame ← df reader;
   Ok (df_len frame, df_columns frame !! "INFO_AD_REF",
       df_columns frame !! "INFO_AD_ALT", df_columns frame !! "INFO_AD_0"))
  = Ok (1%nat, Some [VInt 3], Some [VInt 4], None) ∧
  (reader ← built; __getitem__ reader 0) = Raise (KeyError "INFO_AD_0").
Proof. repeat split; vm_compute; reflexivity. Qed.

(** The same reader over the worked example, with its INFO key of Number A
    and no FORMAT key but GT: the view of each row is built, with the single
    value of the key. *)
Example getitem_number_A :
  (reader ← __init__ "calls.vcf" [] false true "caller" ["DP4"] ["q10"] ["GT"] None 2 5000
                     example_file;
   view ← __getitem__ reader 1;
   Ok (v_allele view, v_info view !! "DP4", v_samples view, v_zygosity view, v_filter view))
  = Ok (VStr "TG", Some (Single (VInt 6)), [[VStr "-1/-1"]], [NONE], None).
Proof. vm_compute. reflexivity. Qed.

Lemma zygosity_for_allele_cases_witness :
  zygosity_for_allele example_reader [2; 2; 1] 1 = Ok HOMOZYGOUS ∧
  zygosity_for_allele example_reader [1; 2; 0] 1 = Ok NONE.
Proof.
  split.
  - apply (zygosity_for_allele_cases example_reader 2 2 [1] 1). reflexivity.
  - apply (zygosity_for_allele_cases example_reader 1 2 [0] 1). reflexivity.
Defined.

(** The worked example read by two workers, one record per chunk: the
    first record goes to worker 0 and the second to worker 1, and the table
    has the three rows. *)
Lemma parsed_table_rows_witness :
  (reader ← _parallel_parse_vcf (new_reader false ["DP4"] ["q10"] ["GT"; "AD"] 2 1)
                                example_file;
   __len__ reader) = Ok 3.
Proof.
  destruct (_parallel_parse_vcf (new_reader false ["DP4"] ["q10"] ["GT"; "AD"] 2 1)
                                example_file) as [reader|e] eqn:Hrun.
  - destruct (parsed_table_rows _ _ _ Hrun) as (frame & _ & _ & Hlen).
    simpl. rewrite Hlen. reflexivity.
  - assert (is_Ok (_parallel_parse_vcf
                     (new_reader false ["DP4"] ["q10"] ["GT"; "AD"] 2 1)
                     example_file) = true) as Hok by (vm_compute; reflexivity).
    rewrite Hrun in Hok. discriminate Hok.
Defined.

Example parsed_table_columns :
  (reader ← _parallel_parse_vcf (new_reader false ["DP4"] ["q10"] ["GT"; "AD"] 2 1)
                                example_file;
   frame ← df reader;
   Ok (df_columns frame !! "alt", df_columns frame !! "sample_zyg"))
  = Ok (Some [VStr "T"; VStr "TG"; VStr "A"], Some [VInt 1; VInt 3; VInt 2]).
Proof. vm_compute. reflexivity. Qed.

Lemma create_df_no_keys_witness :
  is_Ok (_create_df (new_reader false [] [] [] 2 5000) example_file
                    [record_a; record_b]) = true.
Proof.
  apply (create_df_no_keys (new_reader false [] [] [] 2 5000) example_file);
    reflexivity.
Defined.

Lemma false_positive_override_witness :
  _detect_zygosity (new_reader true [] [] ["GT"] 2 5000) [] = Ok NO_VARIANT.
Proof. apply false_positive_override. reflexivity. Defined.

Lemma unknown_type_raises_in_decomposition_witness :
  (∃ convert, _get_header_type_lambda "Flag" = Ok convert) ∧
  info_column (example_vcf [] bad_header [bad_record]) bad_record 0 ∅ "SRC"
  = Raise (RuntimeError ["Unknown VCF header type:"; "Character"]).
Proof.
  split.
  - apply (unknown_type_raises_in_decomposition "Flag").
    apply (bool_decide_unpack _). exact I.
  - eapply (unknown_type_raises_in_decomposition "Character").
    + apply (bool_decide_unpack _). exact I.
    + reflexivity.
    + reflexivity.
    + reflexivity.
Defined.

(** C8 as stated fails twice.  A reader over a file that declares the
    unknown type but holds no record is built without any error, and its
    table can be read; and over a file with one record, the part that runs
    before the pool succeeds, and it is the pool of workers that raises. *)
Lemma unknown_type_not_caught_by_schema :
  is_Ok (reader ← __init__ "calls.vcf" [] false true "caller" ["SRC"] [] [] None 2 5000
                           (example_vcf [] bad_header []);
         df reader) = true ∧
  is_Ok (populate_keys (new_reader false ["SRC"] [] [] 2 5000)
                       (example_vcf [] bad_header [bad_record])) = true ∧
  (reader ← populate_keys (new_reader false ["SRC"] [] [] 2 5000)
                          (example_vcf [] bad_header [bad_record]);
   run_pool reader (example_vcf [] bad_header [bad_record]))
  = Raise (RuntimeError ["Unknown VCF header type:"; "Character"]).
Proof. repeat split; vm_compute; reflexivity. Qed.

Lemma df_accessor_witness :
  df example_reader = Raise (RuntimeError ["VCF data frame should be available."]) ∧
  df (set_dataframe example_reader example_frame) = Ok example_frame.
Proof.
  split.
  - apply (df_accessor example_reader). reflexivity.
  - apply (df_accessor (set_dataframe example_reader example_frame)). reflexivity.
Defined.

Lemma unknown_code_has_no_count_witness :
  _get_normalized_count "-1" 1 1 = Ok None ∧
  null_values example_file record_b "-1" = Raise TypeError.
Proof.
  apply (unknown_code_has_no_count "-1" example_file record_b 1 1).
  - apply (bool_decide_unpack _). exact I.
  - reflexivity.
Defined.

(** A record without the INFO key NEG, whose header line gives the Number
    code -1: the row cannot be written. *)
Example absent_field_of_unknown_code :
  _create_df (new_reader false ["NEG"] [] [] 2 5000)
             (example_vcf [] [header_line "INFO" "NEG" "-1" "Integer"] [record_b])
             [record_b]
  = Raise TypeError.
Proof. vm_compute. reflexivity. Qed.



(** A reader that holds the empty table has no row to give. *)
Lemma getitem_index_error_witness :
  __getitem__ (set_dataframe (new_reader false [] [] [] 1 5000) empty_frame) 0
  = Raise IndexError.
Proof.
  apply (getitem_index_error _ empty_frame); [reflexivity | simpl; lia].
Defined.

(** The schema of the reader of the worked example, asked for every INFO
    key: the one INFO line of the header is DP4, of Number A, counted as 1. *)
Lemma init_schema_witness :
  (reader ← __init__ "calls.vcf" [] false true "caller" ["*"] [] ["GT"] None 2 5000
                     example_file;
   Ok (_info_vcf_keys reader, dict_get (_info_vcf_key_counts reader) "DP4"))
  = Ok (["DP4"], Ok (Some 1)).
Proof.
  destruct (__init__ "calls.vcf" [] false true "caller" ["*"] [] ["GT"] None 2 5000
                     example_file) as [reader|e] eqn:Hrun.
  - destruct (init_schema _ _ _ _ _ _ _ _ _ _ _ _ _ Hrun)
      as (Hkeys & _ & _ & _ & (_ & _ & Hcount) & _).
    assert (expand_keys example_file "INFO" ["*"] = Ok ["DP4"]) as Hids by reflexivity.
    rewrite Hids in Hkeys. injection Hkeys as Hkeys.
    simpl. rewrite <- Hkeys in *.
    destruct (Hcount "DP4") as (h & n & Hh & Hn & ->).
    { apply (bool_decide_unpack _). exact I. }
    assert (get_header_type example_file "DP4"
            = Ok (header_line "INFO" "DP4" "A" "Integer")) as Hline by reflexivity.
    rewrite Hline in Hh. injection Hh as <-.
    assert (header_line "INFO" "DP4" "A" "Integer" !! "Number" = Some "A") as Hnum
      by reflexivity.
    rewrite Hnum in Hn. injection Hn as <-. reflexivity.
  - assert (is_Ok (__init__ "calls.vcf" [] false true "caller" ["*"] [] ["GT"] None
                            2 5000 example_file) = true) as Hok
      by (vm_compute; reflexivity).
    rewrite Hrun in Hok. discriminate Hok.
Defined.

(** The worked example read with a chunk size of 0. *)
Lemma zero_chunksize_witness :
  _parallel_parse_vcf (new_reader false [] [] [] 1 0) example_file
  = Raise ZeroDivisionError.
Proof.
  pose proof (zero_chunksize (new_reader false [] [] [] 1 0) _ example_file eq_refl)
    as Hzero.
  apply Hzero; [simpl; lia | reflexivity].
Defined.

(** The INFO key AD of Number R and type Integer: both cells are integers. *)
Lemma info_cells_typed_witness :
  @grows_by unit (λ c, has_header_type "Integer" c = true) ∅
    (append (append ∅ "INFO_AD_REF" (VInt 3)) "INFO_AD_ALT" (VInt 4)).
Proof.
  apply (info_cells_typed per_allele_file per_allele_record 0 ∅ _ "AD"
           (header_line "INFO" "AD" "R" "Integer") "R" "Integer");
    (reflexivity || discriminate).
Defined.

(** The FORMAT key SB of Number A and type String: the integer 5 is written
    as the string 5. *)
Lemma format_cells_typed_witness :
  @grows_by unit (λ c, has_header_type "String" c = true) ∅
    (append ∅ "sample_SB" (VStr "5")).
Proof.
  apply (format_cells_typed example_reader typed_file typed_record 0 ∅ _ "SB"
           (0%nat, "sample") (header_line "INFO" "SB" "A" "String") "A" "String");
    (reflexivity || discriminate).
Defined.

(** The second record of the worked example has no DP4. *)
Lemma absent_info_field_witness :
  info_column example_file record_b 0 ∅ "DP4" = Ok (append ∅ "INFO_DP4" VNone).
Proof.
  assert (0 < length (ALT record_b))%nat as Halt by (simpl; lia).
  destruct (absent_info_field example_file record_b 0 ∅ "DP4"
              (header_line "INFO" "DP4" "A" "Integer") "A" "Integer"
              (λ x, if is_None x then Ok VNone else z ← py_int x; Ok (VInt z))
              eq_refl eq_refl eq_refl eq_refl eq_refl Halt) as (HA & _).
  exact (HA eq_refl).
Defined.

(** The flag DB of a record that carries it leaves no trace in the row. *)
Lemma number_zero_writes_nothing_witness :
  info_column (example_vcf [] flag_header [flag_record]) flag_record 0 ∅ "DB" = Ok ∅.
Proof.
  apply (number_zero_writes_nothing (example_vcf [] flag_header [flag_record])
           flag_record 0 ∅ "DB" (header_line "INFO" "DB" "0" "Flag") "Flag");
    try reflexivity.
  apply (bool_decide_unpack _). exact I.
Defined.

(** The first record of the worked example, whose sample is 0/1, in the
    rows of its two alleles. *)
Lemma genotype_cells_witness :
  format_column example_reader example_file record_a 0 "GT" ∅ (0%nat, "sample")
  = Ok (append (append ∅ "sample_zyg" (VInt 1)) "sample_GT" (VStr "0/1")) ∧
  format_column example_reader example_file record_a 1 "GT" ∅ (0%nat, "sample")
  = Ok (append (append ∅ "sample_zyg" (VInt 3)) "sample_GT" (VStr "-1/-1")).
Proof.
  split.
  - etrans.
    + apply (genotype_cells example_reader example_file record_a 0 0 "sample" ∅ 0 1 [0]).
      reflexivity.
    + vm_compute. reflexivity.
  - etrans.
    + apply (genotype_cells example_reader example_file record_a 1 0 "sample" ∅ 0 1 [0]).
      reflexivity.
    + vm_compute. reflexivity.
Defined.

(** A record without filters, read with the keys q10 and PASS. *)
Lemma filter_cells_witness :
  cells ("FILTER_" +:+ "PASS")
    (filter_columns (new_reader false [] ["q10"; "PASS"] [] 2 5000) record_a ∅)
  = [VBool true] ∧
  cells ("FILTER_" +:+ "q10")
    (filter_columns (new_reader false [] ["q10"; "PASS"] [] 2 5000) record_b ∅)
  = [VBool true].
Proof.
  split.
  - etrans.
    + apply (filter_cells (new_reader false [] ["q10"; "PASS"] [] 2 5000)
               record_a ∅ "PASS");
        apply (bool_decide_unpack _); exact I.
    + reflexivity.
  - etrans.
    + apply (filter_cells (new_reader false [] ["q10"; "PASS"] [] 2 5000)
               record_b ∅ "q10");
        apply (bool_decide_unpack _); exact I.
    + reflexivity.
Defined.
